(** * Altair Finance dashboard (app.py): a shallow embedding

  The dashboard script [main] of [app.py] renders, top to bottom, a market
  overview (two index quotes), a quick symbol search and a portfolio summary
  strip.  Prices are modelled as exact rationals ([Qc]), the quotient of two
  DataFrame scalars as a rational, an infinity or NaN, Python exceptions as
  an explicit error type, and the script as a state-and-exception monad over
  the widgets rendered so far, the local variables that a branch may leave
  unbound, and the Streamlit session state. *)

From Stdlib Require Import Ascii String QArith Qcanon.
From stdpp Require Import base numbers strings list gmap fin_maps.

Local Open Scope string_scope.
Local Open Scope list_scope.

(** ** Decimal numbers *)

Definition hundred : Qc := Qc_of_Z 100.

(** ** Python exceptions and results *)

Module Py.

(** The exceptions the script can meet.  [ScriptControl] stands for
    Streamlit's rerun/stop signal, which derives from [BaseException] and is
    therefore not caught by [except Exception]. *)
Inductive exn : Type :=
| ZeroDivisionError
| IndexError
| UnboundLocalError (name : string)
| CollaboratorError (cls msg : string)
| ScriptControl.

(** [isinstance(e, NameError)]: [UnboundLocalError] is a subclass of
    [NameError]. *)
Definition is_NameError (e : exn) : bool :=
  match e with UnboundLocalError _ => true | _ => false end.

(** [isinstance(e, Exception)] *)
Definition is_Exception (e : exn) : bool :=
  match e with ScriptControl => false | _ => true end.

Inductive result (A : Type) : Type :=
| Ok (a : A)
| Raise (e : exn).
Global Arguments Ok {A} a.
Global Arguments Raise {A} e.

Global Instance result_ret : MRet result := λ A a, Ok a.
Global Instance result_bind : MBind result := λ A B f r,
  match r with Ok a => f a | Raise e => Raise e end.

(** [x / y] as the script divides the totals of the summary (line 175): on
    Python's own numbers a zero divisor raises; the guard of that line keeps
    the divisor positive. *)
Definition div (x y : Qc) : result Qc :=
  if decide (y = 0%Qc) then Raise ZeroDivisionError else Ok (x / y)%Qc.

(** [seq.iloc[i]], negative positions counting from the end. *)
Definition iloc {A} (l : list A) (i : Z) : result A :=
  let n := Z.of_nat (length l) in
  let j := if decide (i < 0)%Z then (n + i)%Z else i in
  if decide (0 ≤ j < n)%Z then
    match l !! Z.to_nat j with Some a => Ok a | None => Raise IndexError end
  else Raise IndexError.

End Py.
Import Py.

(** ** Scalars read from a DataFrame *)

Module Np.

(** The value of an arithmetic expression over [numpy.float64] scalars: a
    number, an infinity with its sign, or NaN.  Nothing here raises. *)
Inductive float64 : Type :=
| Finite (q : Qc)
| Infinity (negative : bool)
| NaN.

(** [x / y] on two scalars: a zero divisor gives an infinity with the sign of
    the dividend, and NaN when the dividend is zero too. *)
Definition truediv (x y : Qc) : float64 :=
  if decide (y = 0%Qc) then
    if decide (x = 0%Qc) then NaN else Infinity (bool_decide (x < 0)%Qc)
  else Finite (x / y)%Qc.

(** [x * k] for a number [k]. *)
Definition mul (x : float64) (k : Qc) : float64 :=
  match x with
  | Finite q => Finite (q * k)%Qc
  | Infinity negative =>
      if decide (k = 0%Qc) then NaN
      else Infinity (xorb negative (bool_decide (k < 0)%Qc))
  | NaN => NaN
  end.

End Np.
Import Np.

Coercion Finite : Qc >-> float64.

(** ** Percentage change

  The expression [(current - reference) / reference * 100] that the script
  writes out three times (lines 82-83, 103-104, 129-130). *)
Definition change_percent (current reference : Qc) : float64 :=
let change := (current - reference)%Qc in
Np.mul (Np.truediv change reference) hundred.

(** ** Data *)

(** A row of the price series returned by the quote source; the script reads
    the [Open] and [Close] columns only. *)
Record Quote : Type := { Open : Qc; Close : Qc }.

(** A row of the store's portfolio table: one holding. *)
Record Holding : Type := {
  symbol : string;
  quantity : Qc;
  avg_cost : Qc;
  target_quantity : option Qc;
  date_added : string
}.

(** The value stored per symbol in [st.session_state.portfolio]
    (lines 41-46). *)
Module Entry.
Record t : Type := mk {
  quantity : Qc;
  avg_cost : Qc;
  target_quantity : option Qc;
  date_added : string
}.
End Entry.

Record session_state : Type := {
  portfolio : option (gmap string Entry.t);
  theme : option string
}.

(** [portfolio_manager.get_portfolio_summary()] returns a mapping with the
    keys the script reads, and the spec's [holdings_count]. *)
Record PortfolioSummary : Type := {
  total_value : Qc;
  total_cost : Qc;
  holdings_count : nat
}.

(** ** Widgets *)

Inductive column : Type := MetricCol1 | MetricCol2.

Inductive delta : Type :=
| NoDelta
| ChangeAndPct (change : Qc) (change_pct : float64)
| Pct (pct : Qc).
Arguments ChangeAndPct (change change_pct)%_Qc.

Inductive amount : Type :=
| Price (q : Qc)
| Count (n : nat).

(** What the script hands to Streamlit.  Number formatting (the [:,.2f] of the
    f-strings) is left to the widget: a metric keeps the numbers. *)
Inductive widget : Type :=
| LoginPage
| UserMenu
| Toggle (label : string) (value : bool)
| Title (text : string)
| Divider
| Header (text : string)
| Subheader (text : string)
| Metric (label : string) (value : amount) (d : delta)
| Within (c : column) (w : widget)
| Warning (text : string)
| Error (text : string) (e : exn)
| Info (text : string)
| Chart (closes : list Qc)
| Footer.

(** ** The script monad *)

Record page : Type := {
  rendered : list widget;
  metric_cols : option (column * column);
  session : session_state
}.

Definition M (A : Type) : Type := page → page * result A.

#[global] Instance M_ret : MRet M := λ A a pg, (pg, Ok a).
#[global] Instance M_bind : MBind M := λ A B f m pg,
  match m pg with
  | (pg', Ok a) => f a pg'
  | (pg', Raise e) => (pg', Raise e)
  end.

Definition lift {A} (r : result A) : M A := λ pg, (pg, r).

Definition st (w : widget) : M unit := λ pg,
  ({| rendered := rendered pg ++ [w];
      metric_cols := metric_cols pg;
      session := session pg |}, Ok ()).

(** [try: body  except Exception as e: handler(e)] *)
Definition try_except (body : M unit) (handler : exn → M unit) : M unit := λ pg,
  match body pg with
  | (pg', Raise e) => if is_Exception e then handler e pg' else (pg', Raise e)
  | r => r
  end.

(** [metric_col1, metric_col2 = st.columns(2)] (line 85) *)
Definition bind_metric_cols : M unit := λ pg,
  ({| rendered := rendered pg;
      metric_cols := Some (MetricCol1, MetricCol2);
      session := session pg |}, Ok ()).

(** Reading the local variables [metric_col1] and [metric_col2]. *)
Definition get_metric_col1 : M column := λ pg,
  match metric_cols pg with
  | Some (c1, _) => (pg, Ok c1)
  | None => (pg, Raise (UnboundLocalError "metric_col1"))
  end.

Definition get_metric_col2 : M column := λ pg,
  match metric_cols pg with
  | Some (_, c2) => (pg, Ok c2)
  | None => (pg, Raise (UnboundLocalError "metric_col2"))
  end.

Definition get_session : M session_state := λ pg, (pg, Ok (session pg)).

Definition put_session (s : session_state) : M unit := λ pg,
  ({| rendered := rendered pg; metric_cols := metric_cols pg; session := s |},
   Ok ()).

(** ** External collaborators *)

Record Collaborators : Type := {
  is_authenticated : bool;
  (** [None] stands for a falsy user id *)
  get_user_id : option nat;
  get_user_portfolio : nat → list Holding;
  get_user_preferences : option nat → gmap string string;
  (** the state of the theme toggle as the user left it *)
  theme_toggle : bool;
  get_stock_data : string → string → result (list Quote);
  (** the text typed into the symbol box *)
  search_symbol : string;
  (** Python's [str.upper], a built-in of the language, taken as given *)
  upper : string → string;
  (** the latest price the aggregator obtains for a symbol, if any *)
  price_lookup : string → option Qc
}.

(** ** The portfolio aggregator *)

Definition empty_summary : PortfolioSummary :=
  {| total_value := 0%Qc; total_cost := 0%Qc; holdings_count := 0 |}.

Definition valuate_step (price_lookup : string → option Qc)
    (acc : PortfolioSummary) (h : Holding) : PortfolioSummary :=
  {| total_value :=
       match price_lookup (symbol h) with
       | Some price => (total_value acc + price * quantity h)%Qc
       | None => total_value acc
       end;
     total_cost := (total_cost acc + avg_cost h * quantity h)%Qc;
     holdings_count := S (holdings_count acc) |}.

(** Modelled from the spec: [utils/portfolio_manager.py], which holds the
    summary computation, is not among the sources.  Following section 4.1, one
    pass over the holdings adds [price × quantity] to the value total when the
    price is available, always adds [avg_cost × quantity] to the cost total,
    and counts every holding. *)
Definition valuate (holdings : list Holding)
    (price_lookup : string → option Qc) : PortfolioSummary :=
  foldl (valuate_step price_lookup) empty_summary holdings.

(** Modelled from the spec: the add/update/remove operations of the portfolio
    page are not among the sources.  Following section 3, the table keeps one
    holding per symbol: adding replaces a holding of the same symbol, updating
    rewrites it in place, removing drops it. *)
Definition remove_holding (sym : string) (holdings : list Holding)
    : list Holding :=
  filter (λ h, symbol h ≠ sym) holdings.

Definition add_holding (h : Holding) (holdings : list Holding)
    : list Holding :=
  remove_holding (symbol h) holdings ++ [h].

Definition update_holding (h : Holding) (holdings : list Holding)
    : list Holding :=
  (λ h', if decide (symbol h' = symbol h) then h else h') <$> holdings.

Inductive portfolio_op : Type :=
| Add (h : Holding)
| Update (h : Holding)
| Remove (sym : string).

Definition apply_op (holdings : list Holding) (o : portfolio_op)
    : list Holding :=
  match o with
  | Add h => add_holding h holdings
  | Update h => update_holding h holdings
  | Remove sym => remove_holding sym holdings
  end.

(** The holdings held in the session's portfolio mapping. *)
Definition holdings_of (p : gmap string Entry.t) : list Holding :=
  (λ kv, {| symbol := kv.1;
            quantity := Entry.quantity kv.2;
            avg_cost := Entry.avg_cost kv.2;
            target_quantity := Entry.target_quantity kv.2;
            date_added := Entry.date_added kv.2 |}) <$> map_to_list p.

(** Modelled from the spec: the body of [get_portfolio_summary] is not among
    the sources.  The script calls it without arguments (line 163); the
    summary is the spec's [valuate] over the holdings of the session's
    portfolio, with the prices the aggregator obtains. *)
Definition get_portfolio_summary (c : Collaborators) : M PortfolioSummary :=
  s ← get_session;
  mret (valuate (holdings_of (default ∅ (portfolio s))) (price_lookup c)).

(** Lines 174-175. *)
Definition profit_loss (portfolio_summary : PortfolioSummary)
    : result (Qc * Qc) :=
  let profit_loss :=
    (total_value portfolio_summary - total_cost portfolio_summary)%Qc in
  profit_loss_pct ←
    (if decide (0 < total_cost portfolio_summary)%Qc
     then q ← Py.div profit_loss (total_cost portfolio_summary);
          Ok (q * hundred)%Qc
     else Ok 0%Qc);
  Ok (profit_loss, profit_loss_pct).

(** ** The script *)

Definition entry_of_row (row : Holding) : Entry.t :=
  Entry.mk (quantity row) (avg_cost row) (target_quantity row)
    (date_added row).

(** Lines 39-46: the loop that fills the mapping, row after row. *)
Definition rows_to_portfolio (portfolio_df : list Holding)
    : gmap string Entry.t :=
  foldl (λ p row, <[symbol row := entry_of_row row]> p) ∅ portfolio_df.

(** Lines 34-46. *)
Definition load_user_portfolio (c : Collaborators) : M unit :=
  match get_user_id c with
  | Some user_id =>
      let portfolio_df := get_user_portfolio c user_id in
      if bool_decide (portfolio_df ≠ []) then
        s ← get_session;
        put_session {| portfolio := Some (rows_to_portfolio portfolio_df);
                       theme := theme s |}
      else mret ()
  | None => mret ()
  end.

(** Lines 52-68.  The write to the preference store is the collaborator's
    business; [st.rerun()] ends the run. *)
Definition sidebar (c : Collaborators) : M unit :=
  st UserMenu;;
  st (Header "⚙️ Ayarlar");;
  let user_prefs := get_user_preferences c (get_user_id c) in
  let dark := bool_decide (default "light" (user_prefs !! "theme") = "dark") in
  st (Toggle "🌙 Karanlık Tema" dark);;
  if bool_decide (theme_toggle c ≠ dark) then
    let new_theme := if theme_toggle c then "dark" else "light" in
    s ← get_session;
    put_session {| portfolio := portfolio s; theme := Some new_theme |};;
    lift (Raise ScriptControl)
  else
    st Divider;;
    st (Info "📱 Navigasyon").

(** Lines 76-95. *)
Definition bist_overview (c : Collaborators) : M unit :=
  try_except
    (bist_data ← lift (get_stock_data c "XU100.IS" "1d");
     if bool_decide (bist_data ≠ []) then
       current_price ← lift (iloc (Close <$> bist_data) (-1));
       prev_close ← lift (iloc (Open <$> bist_data) (-1));
       let change := (current_price - prev_close)%Qc in
       let change_pct := Np.mul (Np.truediv change prev_close) hundred in
       bind_metric_cols;;
       col ← get_metric_col1;
       st (Within col (Metric "BIST 100" (Price current_price)
                         (ChangeAndPct change change_pct)))
     else
       st (Warning "BIST 100 verisi alınamadı"))
    (λ e, st (Error "BIST 100 verisi alınırken hata" e)).

(** Lines 97-115. *)
Definition sp500_overview (c : Collaborators) : M unit :=
  try_except
    (sp500_data ← lift (get_stock_data c "^GSPC" "1d");
     if bool_decide (sp500_data ≠ []) then
       current_price ← lift (iloc (Close <$> sp500_data) (-1));
       prev_close ← lift (iloc (Open <$> sp500_data) (-1));
       let change := (current_price - prev_close)%Qc in
       let change_pct := Np.mul (Np.truediv change prev_close) hundred in
       col ← get_metric_col2;
       st (Within col (Metric "S&P 500" (Price current_price)
                         (ChangeAndPct change change_pct)))
     else
       st (Warning "S&P 500 verisi alınamadı"))
    (λ e, st (Error "S&P 500 verisi alınırken hata" e)).

(** Lines 117-156. *)
Definition quick_search (c : Collaborators) : M unit :=
  st (Subheader "🔍 Hızlı Hisse Arama");;
  if bool_decide (search_symbol c ≠ "") then
    try_except
      (stock_data ← lift (get_stock_data c (search_symbol c) "5d");
       if bool_decide (stock_data ≠ []) then
         current_price ← lift (iloc (Close <$> stock_data) (-1));
         prev_price ←
           lift (if bool_decide (1 < length stock_data)%nat
                 then iloc (Close <$> stock_data) (-2)
                 else iloc (Close <$> stock_data) (-1));
         let change := (current_price - prev_price)%Qc in
         let change_pct := Np.mul (Np.truediv change prev_price) hundred in
         st (Metric (upper c (search_symbol c)) (Price current_price)
               (ChangeAndPct change change_pct));;
         st (Chart (Close <$> stock_data))
       else
         st (Warning "Veri bulunamadı"))
      (λ e, st (Error "Hisse verisi alınırken hata" e))
  else mret ().

(** The condition of line 162. *)
Definition has_portfolio (s : session_state) : bool :=
  match portfolio s with
  | Some p => bool_decide (p ≠ ∅)
  | None => false
  end.

(** Lines 158-185. *)
Definition portfolio_overview (c : Collaborators) : M unit :=
  st Divider;;
  st (Subheader "💼 Portföy Özeti");;
  s ← get_session;
  if has_portfolio s then
    portfolio_summary ← get_portfolio_summary c;
    st (Metric "Toplam Değer" (Price (total_value portfolio_summary)) NoDelta);;
    st (Metric "Toplam Maliyet" (Price (total_cost portfolio_summary)) NoDelta);;
    pl ← lift (profit_loss portfolio_summary);
    st (Metric "Kar/Zarar" (Price pl.1) (Pct pl.2));;
    st (Metric "Hisse Sayısı" (Count (size (default ∅ (portfolio s)))) NoDelta)
  else
    st (Info "Henüz portföy eklenmemiş. Portföy sayfasından hisse ekleyebilirsiniz.").

(** Lines 187-201. *)
Definition news_and_footer : M unit :=
  st Divider;;
  st (Subheader "📰 Piyasa Haberleri");;
  st (Info "Piyasa haberleri entegrasyonu için harici API gerekiyor. Bu özellik ileride eklenebilir.");;
  st Divider;;
  st Footer.

(** Lines 70-201: everything below the sidebar. *)
Definition dashboard (c : Collaborators) : M unit :=
  st (Subheader "📊 Piyasa Özeti");;
  bist_overview c;;
  sp500_overview c;;
  quick_search c;;
  portfolio_overview c;;
  news_and_footer.

(** Lines 27-201. *)
Definition main (c : Collaborators) : M unit :=
  if negb (is_authenticated c) then st LoginPage
  else
    load_user_portfolio c;;
    st (Title "🏦 Altair Finance");;
    st Divider;;
    sidebar c;;
    dashboard c.

Definition fresh_page (s : session_state) : page :=
  {| rendered := []; metric_cols := None; session := s |}.

(** [run m pg] is the page left by [m]; [outcome m pg] says how [m] ended. *)
Definition run {A} (m : M A) (pg : page) : page := (m pg).1.
Definition outcome {A} (m : M A) (pg : page) : result A := (m pg).2.

(** ** Reference sums for the aggregator *)

Definition sum_Qc (l : list Qc) : Qc := foldr Qcplus 0%Qc l.

(** What a holding adds to the value total. *)
Definition market_value (price_lookup : string → option Qc) (h : Holding)
    : Qc :=
  match price_lookup (symbol h) with
  | Some price => (price * quantity h)%Qc
  | None => 0%Qc
  end.

(** What a holding adds to the cost total. *)
Definition cost_basis (h : Holding) : Qc := (avg_cost h * quantity h)%Qc.

(** The data model's constraint on a holding. *)
Definition valid_holding (h : Holding) : Prop :=
  (0 ≤ quantity h)%Qc ∧ (0 ≤ avg_cost h)%Qc.

Definition valid_op (o : portfolio_op) : Prop :=
  match o with
  | Add h | Update h => valid_holding h
  | Remove _ => True
  end.

(** Whether a widget is the metric with the given label, possibly placed in
    a column. *)
Fixpoint shows_metric (label : string) (w : widget) : bool :=
  match w with
  | Metric l _ _ => bool_decide (l = label)
  | Within _ w' => shows_metric label w'
  | _ => false
  end.

(** ** Sample inputs *)

Definition quote (o cl : Z) : Quote :=
  {| Open := Qc_of_Z o; Close := Qc_of_Z cl |}.

Definition holding (sym : string) (qty cost : Z) : Holding :=
  {| symbol := sym; quantity := Qc_of_Z qty; avg_cost := Qc_of_Z cost;
     target_quantity := None; date_added := "2024-01-02" |}.

Definition no_session : session_state := {| portfolio := None; theme := None |}.

(** What [str.upper] does to a string of ASCII characters; the sample inputs
    below type ASCII symbols only. *)
Definition ascii_upper_char (a : ascii) : ascii :=
  let n := nat_of_ascii a in
  if bool_decide (97 ≤ n ≤ 122)%nat then ascii_of_nat (n - 32) else a.

Fixpoint ascii_upper (s : string) : string :=
  match s with
  | EmptyString => EmptyString
  | String a s' => String (ascii_upper_char a) (ascii_upper s')
  end.

(** A signed-in user with a light theme, the given store rows, quote source
    and text in the symbol box; every symbol is priced at 150. *)
Definition visit (rows : list Holding)
    (fetch : string → string → result (list Quote)) (typed : string)
    : Collaborators :=
  {| is_authenticated := true;
     get_user_id := Some 7;
     get_user_portfolio := λ _, rows;
     get_user_preferences := λ _, ∅;
     theme_toggle := false;
     get_stock_data := fetch;
     search_symbol := typed;
     upper := ascii_upper;
     price_lookup := λ _, Some (Qc_of_Z 150) |}.

(** Every series has the single row open 100, close 110. *)
Definition steady_source : string → string → result (list Quote) :=
  λ _ _, Ok [quote 100 110].

(** Every series has the single row open 0, close 1. *)
Definition zero_open_source : string → string → result (list Quote) :=
  λ _ _, Ok [quote 0 1].

(** No data for BIST 100, a provider failure for every five-day series, one
    row for anything else. *)
Definition patchy_source : string → string → result (list Quote) :=
  λ sym period,
    if String.eqb sym "XU100.IS" then Ok []
    else if String.eqb period "5d"
         then Raise (CollaboratorError "ConnectionError" "timed out")
         else Ok [quote 100 110].

(** The spec's scenario: AAPL is priced at 150, nothing else is. *)
Definition aapl_only : string → option Qc :=
  λ sym, if String.eqb sym "AAPL" then Some (Qc_of_Z 150) else None.

(** A session that already holds one position. *)
Definition one_position : session_state :=
  {| portfolio :=
       Some {[ "AAPL" := entry_of_row (holding "AAPL" 10 100) ]};
     theme := None |}.

(** ** Further sample inputs and an invariant of script fragments *)

(** A summary with a loss: value 1500 against a cost of 2000. *)
Definition losing_summary : PortfolioSummary :=
  {| total_value := Qc_of_Z 1500; total_cost := Qc_of_Z 2000;
     holdings_count := 2 |}.

(** A visitor who is not signed in. *)
Definition stranger : Collaborators :=
  {| is_authenticated := false;
     get_user_id := None;
     get_user_portfolio := λ _, [];
     get_user_preferences := λ _, ∅;
     theme_toggle := false;
     get_stock_data := steady_source;
     search_symbol := "";
     upper := ascii_upper;
     price_lookup := λ _, None |}.

(** A signed-in user who has just switched the toggle to dark while the
    stored preference is still the default. *)
Definition switching_to_dark (rows : list Holding) : Collaborators :=
  {| is_authenticated := true;
     get_user_id := Some 7;
     get_user_portfolio := λ _, rows;
     get_user_preferences := λ _, ∅;
     theme_toggle := true;
     get_stock_data := steady_source;
     search_symbol := "";
     upper := ascii_upper;
     price_lookup := λ _, None |}.

(** A fragment that leaves the session state as it found it. *)
Definition keeps_session {A} (m : M A) : Prop :=
  ∀ pg, session (run m pg) = session pg.

(** * Properties *)

(** ** Arithmetic and sequences *)

Lemma hundred_nonzero : hundred ≠ 0%Qc.
Proof. intros H. apply (f_equal this) in H. discriminate H. Qed.

Lemma div_nonzero (x y : Qc) : y ≠ 0%Qc → Py.div x y = Ok (x / y)%Qc.
Proof. intros Hy. unfold Py.div. by rewrite decide_False. Qed.

Lemma div_zero (x : Qc) : Py.div x 0%Qc = Raise ZeroDivisionError.
Proof. unfold Py.div. by rewrite decide_True. Qed.

Lemma iloc_last {A} (l : list A) (x : A) : iloc (l ++ [x]) (-1) = Ok x.
Proof.
  unfold iloc. rewrite length_app. simpl length.
  destruct (decide (-1 < 0)%Z); [|lia].
  rewrite decide_True by lia.
  replace (Z.to_nat (Z.of_nat (length l + 1) + -1)) with (length l) by lia.
  by rewrite list_lookup_middle.
Qed.

Lemma iloc_before_last {A} (l : list A) (x y : A) :
  iloc (l ++ [x; y]) (-2) = Ok x.
Proof.
  unfold iloc. rewrite length_app. simpl length.
  destruct (decide (-2 < 0)%Z); [|lia].
  rewrite decide_True by lia.
  replace (Z.to_nat (Z.of_nat (length l + 2) + -2)) with (length l) by lia.
  by rewrite list_lookup_middle.
Qed.

Lemma iloc_empty {A} (i : Z) : iloc (@nil A) i = Raise IndexError.
Proof. unfold iloc. simpl. repeat case_decide; done || lia. Qed.

Lemma Qc_zero_div (y : Qc) : (0 / y)%Qc = 0%Qc.
Proof. unfold Qcdiv. apply Qcmult_0_l. Qed.

Lemma hundred_pos : (0 < hundred)%Qc.
Proof. by vm_compute. Qed.

Lemma mul_hundred (x : float64) :
  Np.mul x hundred =
    match x with
    | Finite q => Finite (q * hundred)%Qc
    | Infinity negative => Infinity negative
    | NaN => NaN
    end.
Proof.
  destruct x as [q|negative|]; unfold Np.mul; [done| |done].
  rewrite decide_False by apply hundred_nonzero.
  rewrite bool_decide_eq_false_2
    by (apply Qcle_not_lt, Qclt_le_weak, hundred_pos).
  by destruct negative.
Qed.

Lemma change_percent_value (current reference : Qc) :
  change_percent current reference =
    if decide (reference = 0%Qc) then
      if decide (current = 0%Qc) then NaN
      else Infinity (bool_decide (current < 0)%Qc)
    else Finite ((current - reference) / reference * hundred)%Qc.
Proof.
  unfold change_percent, Np.truediv. rewrite mul_hundred.
  case_decide as Href; [|done]. subst reference.
  replace (current - 0)%Qc with current by ring.
  by case_decide.
Qed.

Lemma change_percent_finite (current reference : Qc) :
  reference ≠ 0%Qc →
  change_percent current reference =
    Finite ((current - reference) / reference * hundred)%Qc.
Proof. intros Href. by rewrite change_percent_value, decide_False. Qed.

Lemma iloc_fmap_last {A B} (f : A → B) (l : list A) (x : A) :
  iloc (f <$> l ++ [x]) (-1) = Ok (f x).
Proof. rewrite fmap_app. apply iloc_last. Qed.

Lemma iloc_fmap_before_last {A B} (f : A → B) (l : list A) (x y : A) :
  iloc (f <$> (l ++ [x]) ++ [y]) (-2) = Ok (f x).
Proof. rewrite <- app_assoc, fmap_app. apply iloc_before_last. Qed.

Lemma nonempty_snoc {A} (l : list A) (x : A) :
  bool_decide (l ++ [x] ≠ []) = true.
Proof. apply bool_decide_eq_true. by destruct l. Qed.

(** ** The monad's plumbing *)

Lemma outcome_st (w : widget) (pg : page) : outcome (st w) pg = Ok ().
Proof. reflexivity. Qed.

Lemma rendered_st (w : widget) (pg : page) :
  rendered (run (st w) pg) = rendered pg ++ [w].
Proof. reflexivity. Qed.

Lemma bind_ok {A B} (m : M A) (k : A → M B) (pg : page) (a : A) :
  outcome m pg = Ok a → (m ≫= k) pg = k a (run m pg).
Proof.
  unfold outcome, run, mbind, M_bind. destruct (m pg) as [pg' r]; simpl.
  by intros ->.
Qed.

(** ** The three quote blocks, case by case *)

Section Blocks.
Variable c : Collaborators.
Variable pg : page.

Lemma bist_overview_nonempty (rows : list Quote) (row : Quote) :
  get_stock_data c "XU100.IS" "1d" = Ok (rows ++ [row]) →
  bist_overview c pg =
    st (Within MetricCol1
          (Metric "BIST 100" (Price (Close row))
             (ChangeAndPct (Close row - Open row)
                (change_percent (Close row) (Open row)))))
       (run bind_metric_cols pg).
Proof.
  intros Hdata. unfold bist_overview, try_except, change_percent.
  unfold mbind, M_bind, lift. rewrite Hdata, nonempty_snoc.
  by rewrite !iloc_fmap_last.
Qed.

Lemma bist_overview_empty :
  get_stock_data c "XU100.IS" "1d" = Ok [] →
  bist_overview c pg = st (Warning "BIST 100 verisi alınamadı") pg.
Proof.
  intros Hdata. unfold bist_overview, try_except, mbind, M_bind, lift.
  by rewrite Hdata.
Qed.

Lemma bist_overview_raises (e : exn) :
  get_stock_data c "XU100.IS" "1d" = Raise e →
  bist_overview c pg =
    if is_Exception e then st (Error "BIST 100 verisi alınırken hata" e) pg
    else (pg, Raise e).
Proof.
  intros Hdata. unfold bist_overview, try_except, mbind, M_bind, lift.
  by rewrite Hdata.
Qed.

Lemma sp500_overview_nonempty (rows : list Quote) (row : Quote) :
  get_stock_data c "^GSPC" "1d" = Ok (rows ++ [row]) →
  sp500_overview c pg =
    match metric_cols pg with
    | Some (_, col) =>
        st (Within col
              (Metric "S&P 500" (Price (Close row))
                 (ChangeAndPct (Close row - Open row)
                    (change_percent (Close row) (Open row))))) pg
    | None =>
        st (Error "S&P 500 verisi alınırken hata"
              (UnboundLocalError "metric_col2")) pg
    end.
Proof.
  intros Hdata. unfold sp500_overview, try_except, change_percent.
  unfold mbind, M_bind, lift. rewrite Hdata, nonempty_snoc.
  rewrite !iloc_fmap_last. unfold get_metric_col2.
  by destruct (metric_cols pg) as [[c1 c2]|].
Qed.

Lemma sp500_overview_empty :
  get_stock_data c "^GSPC" "1d" = Ok [] →
  sp500_overview c pg = st (Warning "S&P 500 verisi alınamadı") pg.
Proof.
  intros Hdata. unfold sp500_overview, try_except, mbind, M_bind, lift.
  by rewrite Hdata.
Qed.

Lemma sp500_overview_raises (e : exn) :
  get_stock_data c "^GSPC" "1d" = Raise e →
  sp500_overview c pg =
    if is_Exception e then st (Error "S&P 500 verisi alınırken hata" e) pg
    else (pg, Raise e).
Proof.
  intros Hdata. unfold sp500_overview, try_except, mbind, M_bind, lift.
  by rewrite Hdata.
Qed.

(** The price the search block compares the latest close with. *)
Lemma quick_search_nonempty (rows : list Quote) (row : Quote) :
  search_symbol c ≠ "" →
  get_stock_data c (search_symbol c) "5d" = Ok (rows ++ [row]) →
  quick_search c pg =
    let pg1 := run (st (Subheader "🔍 Hızlı Hisse Arama")) pg in
    let prev_price := from_option Close (Close row) (last rows) in
    st (Chart (Close <$> rows ++ [row]))
      (run (st (Metric (upper c (search_symbol c)) (Price (Close row))
                  (ChangeAndPct (Close row - prev_price)
                     (change_percent (Close row) prev_price)))) pg1).
Proof.
  intros Hsym Hdata. unfold quick_search, try_except, change_percent.
  unfold mbind at 1. unfold M_bind at 1. simpl.
  rewrite bool_decide_eq_true_2 by done.
  unfold mbind, M_bind, lift. rewrite Hdata, nonempty_snoc.
  rewrite iloc_fmap_last.
  destruct rows as [|prev rows' _] using rev_ind.
  - done.
  - rewrite last_snoc. simpl from_option.
    rewrite bool_decide_eq_true_2 by (rewrite !length_app; simpl; lia).
    by rewrite iloc_fmap_before_last.
Qed.

Lemma quick_search_empty :
  search_symbol c ≠ "" →
  get_stock_data c (search_symbol c) "5d" = Ok [] →
  quick_search c pg =
    st (Warning "Veri bulunamadı")
      (run (st (Subheader "🔍 Hızlı Hisse Arama")) pg).
Proof.
  intros Hsym Hdata. unfold quick_search, try_except.
  unfold mbind at 1. unfold M_bind at 1. simpl.
  rewrite bool_decide_eq_true_2 by done.
  unfold mbind, M_bind, lift. by rewrite Hdata.
Qed.

Lemma quick_search_raises (e : exn) :
  search_symbol c ≠ "" →
  get_stock_data c (search_symbol c) "5d" = Raise e →
  quick_search c pg =
    let pg1 := run (st (Subheader "🔍 Hızlı Hisse Arama")) pg in
    if is_Exception e then st (Error "Hisse verisi alınırken hata" e) pg1
    else (pg1, Raise e).
Proof.
  intros Hsym Hdata. unfold quick_search, try_except.
  unfold mbind at 1. unfold M_bind at 1. simpl.
  rewrite bool_decide_eq_true_2 by done.
  unfold mbind, M_bind, lift. by rewrite Hdata.
Qed.

Lemma quick_search_no_symbol :
  search_symbol c = "" →
  quick_search c pg = (run (st (Subheader "🔍 Hızlı Hisse Arama")) pg, Ok ()).
Proof.
  intros Hsym. unfold quick_search.
  unfold mbind at 1. unfold M_bind at 1. simpl.
  by rewrite bool_decide_eq_false_2 by (by intros []).
Qed.

End Blocks.

(** ** Percentage change (C1) *)

(** C1, refuted as stated: with reference 0 nothing is raised.  The
    computation returns a value, an infinity, and the BIST 100 block given a
    latest open of 0 renders its metric with that value rather than an error
    notice. *)
Lemma change_percent_zero_reference_returns :
  change_percent (Qc_of_Z 1) (Qc_of_Z 0) = Infinity false ∧
  bist_overview (visit [] zero_open_source "") (fresh_page no_session) =
    st (Within MetricCol1
          (Metric "BIST 100" (Price (Qc_of_Z 1))
             (ChangeAndPct (Qc_of_Z 1 - Qc_of_Z 0) (Infinity false))))
       (run bind_metric_cols (fresh_page no_session)).
Proof.
  assert (change_percent (Qc_of_Z 1) (Qc_of_Z 0) = Infinity false) as Hvalue.
  { rewrite change_percent_value.
    rewrite decide_True by apply Z2Qc_inj_0.
    rewrite decide_False
      by (intros H; apply (f_equal this) in H; discriminate H).
    rewrite bool_decide_eq_false_2; [done|].
    intros Hneg. vm_compute in Hneg. discriminate Hneg. }
  split; [done|].
  rewrite (bist_overview_nonempty (visit [] zero_open_source "")
             (fresh_page no_session) [] (quote 0 1) eq_refl).
  change (Close (quote 0 1)) with (Qc_of_Z 1).
  change (Open (quote 0 1)) with (Qc_of_Z 0).
  by rewrite Hvalue.
Qed.

(** C1, amended: for all decimals [current] and [reference] the computation
    returns [(current - reference) / reference * 100] when [reference] is not
    zero; when [reference] is zero it raises nothing and returns an infinity
    with the sign of [current], or NaN when [current] is zero too.  The two
    index blocks and the symbol search are instances: on a non-empty series
    each hands that value to its metric (latest close against latest open for
    the indices, against the previous close for the search). *)
Theorem change_percent_spec (c : Collaborators) (pg : page)
    (bist sp500 stock : list Quote) (b s k : Quote) :
  get_stock_data c "XU100.IS" "1d" = Ok (bist ++ [b]) →
  get_stock_data c "^GSPC" "1d" = Ok (sp500 ++ [s]) →
  search_symbol c ≠ "" →
  get_stock_data c (search_symbol c) "5d" = Ok (stock ++ [k]) →
  (∀ current reference : Qc,
     change_percent current reference =
       if decide (reference = 0%Qc) then
         if decide (current = 0%Qc) then NaN
         else Infinity (bool_decide (current < 0)%Qc)
       else Finite ((current - reference) / reference * hundred)%Qc) ∧
  bist_overview c pg =
    st (Within MetricCol1
          (Metric "BIST 100" (Price (Close b))
             (ChangeAndPct (Close b - Open b)
                (change_percent (Close b) (Open b)))))
       (run bind_metric_cols pg) ∧
  sp500_overview c pg =
    match metric_cols pg with
    | Some (_, col) =>
        st (Within col
              (Metric "S&P 500" (Price (Close s))
                 (ChangeAndPct (Close s - Open s)
                    (change_percent (Close s) (Open s))))) pg
    | None =>
        st (Error "S&P 500 verisi alınırken hata"
              (UnboundLocalError "metric_col2")) pg
    end ∧
  quick_search c pg =
    (let pg1 := run (st (Subheader "🔍 Hızlı Hisse Arama")) pg in
     let prev_price := from_option Close (Close k) (last stock) in
     st (Chart (Close <$> stock ++ [k]))
       (run (st (Metric (upper c (search_symbol c)) (Price (Close k))
                   (ChangeAndPct (Close k - prev_price)
                      (change_percent (Close k) prev_price)))) pg1)).
Proof.
  intros Hbist Hsp Hsym Hstock. split; [|split; [|split]].
  - apply change_percent_value.
  - exact (bist_overview_nonempty c pg bist b Hbist).
  - exact (sp500_overview_nonempty c pg sp500 s Hsp).
  - exact (quick_search_nonempty c pg stock k Hsym Hstock).
Qed.

Lemma change_percent_spec_witness :
  (∀ current reference : Qc,
     change_percent current reference =
       if decide (reference = 0%Qc) then
         if decide (current = 0%Qc) then NaN
         else Infinity (bool_decide (current < 0)%Qc)
       else Finite ((current - reference) / reference * hundred)%Qc) ∧
  bist_overview (visit [] steady_source "spy") (fresh_page no_session) =
    st (Within MetricCol1
          (Metric "BIST 100" (Price (Close (quote 100 110)))
             (ChangeAndPct (Close (quote 100 110) - Open (quote 100 110))
                (change_percent (Close (quote 100 110))
                   (Open (quote 100 110))))))
       (run bind_metric_cols (fresh_page no_session)).
Proof.
  destruct (change_percent_spec (visit [] steady_source "spy")
              (fresh_page no_session) [] [] [] (quote 100 110)
              (quote 100 110) (quote 100 110))
    as (Hvalue & Hbist & _).
  - reflexivity.
  - reflexivity.
  - discriminate.
  - reflexivity.
  - split; [exact Hvalue | exact Hbist].
Defined.

(** The spec's examples: 110 against 100 is +10, 90 against 100 is -10. *)
Lemma change_percent_examples :
  change_percent (Qc_of_Z 110) (Qc_of_Z 100) = Finite (Qc_of_Z 10) ∧
  change_percent (Qc_of_Z 90) (Qc_of_Z 100) = Finite (Qc_of_Z (-10)).
Proof.
  rewrite !change_percent_finite
    by (intros H; apply (f_equal this) in H; discriminate H).
  split; f_equal; by apply Qc_is_canon.
Qed.

(** ** Profit and loss (C3) *)

Lemma profit_loss_value (summary : PortfolioSummary) :
  profit_loss summary =
    Ok ((total_value summary - total_cost summary)%Qc,
        if decide (0 < total_cost summary)%Qc
        then ((total_value summary - total_cost summary)
              / total_cost summary * hundred)%Qc
        else 0%Qc).
Proof.
  unfold profit_loss. case_decide as Hcost; [|done].
  rewrite div_nonzero; [done|].
  intros Hzero. rewrite Hzero in Hcost. by apply (Qclt_not_eq 0 0) in Hcost.
Qed.

(** C3: [profit_loss] returns the pair of [total_value - total_cost] and, when
    [total_cost > 0], that difference divided by [total_cost] times 100,
    otherwise 0; it always returns (no exception), and with [total_cost = 0]
    the percentage is 0 whatever [total_value] is. *)
Theorem profit_loss_spec (summary : PortfolioSummary) :
  profit_loss summary =
    Ok ((total_value summary - total_cost summary)%Qc,
        if decide (0 < total_cost summary)%Qc
        then ((total_value summary - total_cost summary)
              / total_cost summary * hundred)%Qc
        else 0%Qc) ∧
  ∀ (value : Qc) (count : nat),
    profit_loss {| total_value := value; total_cost := 0%Qc;
                   holdings_count := count |} = Ok ((value - 0)%Qc, 0%Qc).
Proof.
  split; [apply profit_loss_value|].
  intros value count. rewrite profit_loss_value. cbn [total_cost total_value].
  rewrite decide_False; [done|].
  intros Hlt. by apply (Qclt_not_eq 0 0) in Hlt.
Qed.

(** ** A one-row search result (C10) *)

(** C10: when the searched symbol's series has exactly one row, the previous
    price is the latest close itself, and whenever that close is not zero the
    division goes through and the metric shows a change of 0 and a change
    percentage of 0. *)
Theorem single_row_search_shows_zero (c : Collaborators) (pg : page)
    (row : Quote) :
  search_symbol c ≠ "" →
  get_stock_data c (search_symbol c) "5d" = Ok [row] →
  (if bool_decide (1 < length [row])%nat
   then iloc (Close <$> [row]) (-2)
   else iloc (Close <$> [row]) (-1)) = Ok (Close row) ∧
  (Close row ≠ 0%Qc →
   quick_search c pg =
     st (Chart [Close row])
       (run (st (Metric (upper c (search_symbol c)) (Price (Close row))
                   (ChangeAndPct 0%Qc 0%Qc)))
          (run (st (Subheader "🔍 Hızlı Hisse Arama")) pg))).
Proof.
  intros Hsym Hdata. split; [done|]. intros Hclose.
  rewrite (quick_search_nonempty c pg [] row Hsym Hdata).
  cbv zeta. cbn [last from_option fmap list_fmap app].
  rewrite change_percent_finite by done.
  replace (Close row - Close row)%Qc with 0%Qc by ring.
  by rewrite Qc_zero_div, Qcmult_0_l.
Qed.

Lemma single_row_search_shows_zero_witness :
  quick_search (visit [] steady_source "spy") (fresh_page no_session) =
    st (Chart [Qc_of_Z 110])
      (run (st (Metric "SPY" (Price (Qc_of_Z 110)) (ChangeAndPct 0%Qc 0%Qc)))
         (run (st (Subheader "🔍 Hızlı Hisse Arama")) (fresh_page no_session))).
Proof.
  refine (proj2 (single_row_search_shows_zero (visit [] steady_source "spy")
                   (fresh_page no_session) (quote 100 110) _ _) _).
  - discriminate.
  - reflexivity.
  - intros H. apply (f_equal this) in H. discriminate H.
Defined.

(** With a single row whose close is zero the division is not avoided and
    nothing is raised: the metric shows a change of 0 beside NaN. *)
Lemma single_row_search_zero_close (c : Collaborators) (pg : page)
    (row : Quote) :
  search_symbol c ≠ "" →
  get_stock_data c (search_symbol c) "5d" = Ok [row] →
  Close row = 0%Qc →
  quick_search c pg =
    st (Chart [Close row])
      (run (st (Metric (upper c (search_symbol c)) (Price (Close row))
                  (ChangeAndPct 0%Qc NaN)))
         (run (st (Subheader "🔍 Hızlı Hisse Arama")) pg)).
Proof.
  intros Hsym Hdata Hclose.
  rewrite (quick_search_nonempty c pg [] row Hsym Hdata).
  cbv zeta. cbn [last from_option fmap list_fmap app].
  rewrite change_percent_value, !decide_True by done.
  by replace (Close row - Close row)%Qc with 0%Qc by ring.
Qed.

(** ** The page always reaches its end (C6) *)

Lemma seq_ok (m k : M unit) (pg : page) :
  outcome m pg = Ok () → (m;; k) pg = k (run m pg).
Proof. intros Hm. by rewrite (bind_ok m (λ _, k) pg ()). Qed.

Section Completion.
Variable c : Collaborators.
Hypothesis ordinary :
  ∀ sym period e, get_stock_data c sym period = Raise e → is_Exception e = true.

Lemma bist_overview_ok (pg : page) : outcome (bist_overview c) pg = Ok ().
Proof.
  unfold outcome.
  destruct (get_stock_data c "XU100.IS" "1d") as [data|e] eqn:Hdata.
  - destruct data as [|row rows _] using rev_ind.
    + by rewrite bist_overview_empty.
    + by rewrite (bist_overview_nonempty c pg rows row Hdata).
  - rewrite (bist_overview_raises c pg e Hdata).
    by rewrite (ordinary _ _ _ Hdata).
Qed.

Lemma sp500_overview_ok (pg : page) : outcome (sp500_overview c) pg = Ok ().
Proof.
  unfold outcome.
  destruct (get_stock_data c "^GSPC" "1d") as [data|e] eqn:Hdata.
  - destruct data as [|row rows _] using rev_ind.
    + by rewrite sp500_overview_empty.
    + rewrite (sp500_overview_nonempty c pg rows row Hdata).
      by destruct (metric_cols pg) as [[col1 col2]|].
  - rewrite (sp500_overview_raises c pg e Hdata).
    by rewrite (ordinary _ _ _ Hdata).
Qed.

Lemma quick_search_ok (pg : page) : outcome (quick_search c) pg = Ok ().
Proof.
  unfold outcome. destruct (decide (search_symbol c = "")) as [Hsym|Hsym].
  { by rewrite quick_search_no_symbol. }
  destruct (get_stock_data c (search_symbol c) "5d") as [data|e] eqn:Hdata.
  - destruct data as [|row rows _] using rev_ind.
    + by rewrite quick_search_empty.
    + by rewrite (quick_search_nonempty c pg rows row Hsym Hdata).
  - rewrite (quick_search_raises c pg e Hsym Hdata). simpl.
    by rewrite (ordinary _ _ _ Hdata).
Qed.

End Completion.

Lemma portfolio_overview_ok (c : Collaborators) (pg : page) :
  outcome (portfolio_overview c) pg = Ok ().
Proof.
  unfold outcome, portfolio_overview, get_portfolio_summary.
  unfold mbind, M_bind, mret, M_ret, lift, get_session. simpl.
  destruct (has_portfolio (session pg)); [|done].
  by rewrite profit_loss_value.
Qed.

Lemma news_and_footer_ok (pg : page) : outcome news_and_footer pg = Ok ().
Proof. reflexivity. Qed.

Lemma dashboard_runs_through (c : Collaborators) (pg : page) :
  (∀ sym period e,
     get_stock_data c sym period = Raise e → is_Exception e = true) →
  dashboard c pg =
    news_and_footer
      (run (portfolio_overview c)
         (run (quick_search c)
            (run (sp500_overview c)
               (run (bist_overview c)
                  (run (st (Subheader "📊 Piyasa Özeti")) pg))))).
Proof.
  intros ordinary. unfold dashboard.
  rewrite seq_ok by apply outcome_st.
  rewrite seq_ok by by apply bist_overview_ok.
  rewrite seq_ok by by apply sp500_overview_ok.
  rewrite seq_ok by by apply quick_search_ok.
  by rewrite seq_ok by apply portfolio_overview_ok.
Qed.

(** C6: on the dashboard an empty series is shown as a warning and a raised
    exception as an error notice, for each of the three quote requests, and
    whatever the quote source answers the script runs every later block to the
    end of the page. *)
Theorem quote_outcomes_never_halt (c : Collaborators) (pg : page) :
  (∀ sym period e,
     get_stock_data c sym period = Raise e → is_Exception e = true) →
  (get_stock_data c "XU100.IS" "1d" = Ok [] →
   bist_overview c pg = st (Warning "BIST 100 verisi alınamadı") pg) ∧
  (∀ e, get_stock_data c "XU100.IS" "1d" = Raise e →
   bist_overview c pg = st (Error "BIST 100 verisi alınırken hata" e) pg) ∧
  (get_stock_data c "^GSPC" "1d" = Ok [] →
   sp500_overview c pg = st (Warning "S&P 500 verisi alınamadı") pg) ∧
  (∀ e, get_stock_data c "^GSPC" "1d" = Raise e →
   sp500_overview c pg = st (Error "S&P 500 verisi alınırken hata" e) pg) ∧
  (search_symbol c ≠ "" →
   get_stock_data c (search_symbol c) "5d" = Ok [] →
   quick_search c pg =
     st (Warning "Veri bulunamadı")
       (run (st (Subheader "🔍 Hızlı Hisse Arama")) pg)) ∧
  (∀ e, search_symbol c ≠ "" →
   get_stock_data c (search_symbol c) "5d" = Raise e →
   quick_search c pg =
     st (Error "Hisse verisi alınırken hata" e)
       (run (st (Subheader "🔍 Hızlı Hisse Arama")) pg)) ∧
  outcome (dashboard c) pg = Ok () ∧
  run (dashboard c) pg =
    run news_and_footer
      (run (portfolio_overview c)
         (run (quick_search c)
            (run (sp500_overview c)
               (run (bist_overview c)
                  (run (st (Subheader "📊 Piyasa Özeti")) pg))))).
Proof.
  intros ordinary. repeat split.
  - apply bist_overview_empty.
  - intros e He. by rewrite (bist_overview_raises c pg e He), (ordinary _ _ _ He).
  - apply sp500_overview_empty.
  - intros e He. by rewrite (sp500_overview_raises c pg e He), (ordinary _ _ _ He).
  - apply quick_search_empty.
  - intros e Hsym He.
    rewrite (quick_search_raises c pg e Hsym He). simpl.
    by rewrite (ordinary _ _ _ He).
  - unfold outcome. by rewrite dashboard_runs_through.
  - unfold run at 1. by rewrite dashboard_runs_through.
Qed.

Lemma patchy_source_ordinary (sym period : string) (e : exn) :
  patchy_source sym period = Raise e → is_Exception e = true.
Proof.
  unfold patchy_source.
  destruct (String.eqb sym "XU100.IS"); [done|].
  destruct (String.eqb period "5d"); [|done].
  by intros [= <-].
Qed.

Lemma quote_outcomes_never_halt_witness :
  bist_overview (visit [] patchy_source "spy") (fresh_page no_session) =
    st (Warning "BIST 100 verisi alınamadı") (fresh_page no_session) ∧
  quick_search (visit [] patchy_source "spy") (fresh_page no_session) =
    st (Error "Hisse verisi alınırken hata"
          (CollaboratorError "ConnectionError" "timed out"))
      (run (st (Subheader "🔍 Hızlı Hisse Arama")) (fresh_page no_session)) ∧
  outcome (dashboard (visit [] patchy_source "spy")) (fresh_page no_session)
    = Ok ().
Proof.
  destruct (quote_outcomes_never_halt (visit [] patchy_source "spy")
              (fresh_page no_session) patchy_source_ordinary)
    as (Hempty & _ & _ & _ & _ & Hraise & Hend & _).
  split; [|split].
  - apply Hempty. reflexivity.
  - apply Hraise; [discriminate | reflexivity].
  - exact Hend.
Defined.

(** ** The S&P 500 metric depends on the BIST 100 block (C9) *)

Lemma metric_cols_st (w : widget) (pg : page) :
  metric_cols (run (st w) pg) = metric_cols pg.
Proof. reflexivity. Qed.

(** C9: in every run where the BIST 100 series is empty or its request
    raises, [metric_col2] is still unbound after the BIST 100 block, so reading
    it raises a [NameError]; whenever the S&P 500 data is non-empty the
    S&P 500 block therefore ends in the error notice carrying that
    [NameError], and whatever the S&P 500 request returns no S&P 500 metric
    is rendered. *)
Theorem sp500_metric_needs_bist (c : Collaborators) (pg : page) :
  metric_cols pg = None →
  (get_stock_data c "XU100.IS" "1d" = Ok [] ∨
   ∃ e, get_stock_data c "XU100.IS" "1d" = Raise e) →
  let pg1 := run (bist_overview c) pg in
  metric_cols pg1 = None ∧
  (∃ e, outcome get_metric_col2 pg1 = Raise e ∧ is_NameError e = true) ∧
  (∀ rows row, get_stock_data c "^GSPC" "1d" = Ok (rows ++ [row]) →
     sp500_overview c pg1 =
       st (Error "S&P 500 verisi alınırken hata"
             (UnboundLocalError "metric_col2")) pg1) ∧
  ∃ ws, rendered (run (sp500_overview c) pg1) = rendered pg1 ++ ws ∧
        Forall (λ w, shows_metric "S&P 500" w = false) ws.
Proof.
  intros Hunbound Hbist pg1.
  assert (metric_cols pg1 = None) as Hpg1.
  { unfold pg1, run. destruct Hbist as [Hempty|[e He]].
    - by rewrite bist_overview_empty.
    - rewrite (bist_overview_raises c pg e He). by destruct (is_Exception e). }
  split; [done|]. split; [|split].
  - exists (UnboundLocalError "metric_col2").
    unfold outcome, get_metric_col2. by rewrite Hpg1.
  - intros rows row Hsp.
    by rewrite (sp500_overview_nonempty c pg1 rows row Hsp), Hpg1.
  - unfold run at 1.
    destruct (get_stock_data c "^GSPC" "1d") as [data|e] eqn:Hsp.
    + destruct data as [|row rows _] using rev_ind.
      * rewrite sp500_overview_empty by done.
        exists [Warning "S&P 500 verisi alınamadı"]. split; [done|].
        by repeat constructor.
      * rewrite (sp500_overview_nonempty c pg1 rows row Hsp), Hpg1.
        eexists [_]. split; [done|]. by repeat constructor.
    + rewrite (sp500_overview_raises c pg1 e Hsp).
      destruct (is_Exception e).
      * eexists [_]. split; [done|]. by repeat constructor.
      * exists []. split; [by rewrite app_nil_r|]. constructor.
Qed.

Lemma sp500_metric_needs_bist_witness :
  sp500_overview (visit [] patchy_source "spy")
      (run (bist_overview (visit [] patchy_source "spy"))
         (fresh_page no_session)) =
    st (Error "S&P 500 verisi alınırken hata"
          (UnboundLocalError "metric_col2"))
      (run (bist_overview (visit [] patchy_source "spy"))
         (fresh_page no_session)).
Proof.
  destruct (sp500_metric_needs_bist (visit [] patchy_source "spy")
              (fresh_page no_session) eq_refl (or_introl eq_refl))
    as (_ & _ & Hsp & _).
  exact (Hsp [] (quote 100 110) eq_refl).
Defined.

(** The dashboard is entered with [metric_col1] and [metric_col2] unbound:
    nothing above line 85 assigns them. *)
Lemma main_reaches_dashboard (c : Collaborators) (s : session_state) :
  is_authenticated c = true →
  theme_toggle c =
    bool_decide (default "light"
                   (get_user_preferences c (get_user_id c) !! "theme")
                 = "dark") →
  ∃ pg, metric_cols pg = None ∧ main c (fresh_page s) = dashboard c pg.
Proof.
  intros Hauth Htoggle. unfold main. rewrite Hauth. simpl negb. cbv iota.
  unfold load_user_portfolio, sidebar.
  rewrite (bool_decide_eq_false_2 (theme_toggle c ≠ _)) by (by intros []).
  destruct (get_user_id c) as [user_id|].
  - destruct (bool_decide (get_user_portfolio c user_id ≠ [])).
    + eexists. split; [|reflexivity]. reflexivity.
    + eexists. split; [|reflexivity]. reflexivity.
  - eexists. split; [|reflexivity]. reflexivity.
Qed.

(** ** One holding per symbol (C8) *)

Lemma rows_to_portfolio_snoc (rows : list Holding) (row : Holding) :
  rows_to_portfolio (rows ++ [row]) =
    <[symbol row := entry_of_row row]> (rows_to_portfolio rows).
Proof. unfold rows_to_portfolio. by rewrite foldl_snoc. Qed.

Lemma rows_to_portfolio_lookup (rows : list Holding) (sym : string) :
  rows_to_portfolio rows !! sym =
    entry_of_row <$> last (filter (λ row, symbol row = sym) rows).
Proof.
  induction rows as [|row rows IH] using rev_ind; [done|].
  rewrite rows_to_portfolio_snoc, filter_app, filter_cons, filter_nil.
  case_decide as Hsym.
  - by rewrite last_snoc, Hsym, lookup_insert_eq.
  - by rewrite app_nil_r, lookup_insert_ne.
Qed.

Lemma rows_to_portfolio_dom (rows : list Holding) :
  dom (rows_to_portfolio rows) =@{gset string} list_to_set (symbol <$> rows).
Proof.
  induction rows as [|row rows IH] using rev_ind.
  { unfold rows_to_portfolio. simpl. by rewrite dom_empty_L. }
  rewrite rows_to_portfolio_snoc, dom_insert_L, IH, fmap_app. simpl.
  rewrite list_to_set_snoc_L. apply (comm_L _).
Qed.

Lemma rows_to_portfolio_size (rows : list Holding) :
  size (rows_to_portfolio rows) = length (remove_dups (symbol <$> rows)).
Proof.
  rewrite <- size_dom, rows_to_portfolio_dom.
  rewrite <- (size_list_to_set (C := gset string) (remove_dups (symbol <$> rows)))
    by apply NoDup_remove_dups.
  f_equal. apply set_eq. intros sym.
  by rewrite !elem_of_list_to_set, elem_of_remove_dups.
Qed.

Lemma rows_to_portfolio_nonempty (rows : list Holding) :
  rows ≠ [] → rows_to_portfolio rows ≠ ∅.
Proof.
  destruct rows as [|row rows _] using rev_ind; [done|]. intros _.
  rewrite rows_to_portfolio_snoc. apply insert_non_empty.
Qed.

Lemma load_user_portfolio_session (c : Collaborators) (pg : page)
    (user_id : nat) :
  get_user_id c = Some user_id →
  get_user_portfolio c user_id ≠ [] →
  portfolio (session (run (load_user_portfolio c) pg)) =
    Some (rows_to_portfolio (get_user_portfolio c user_id)).
Proof.
  intros Hid Hrows. unfold run, load_user_portfolio. rewrite Hid.
  by rewrite bool_decide_eq_true_2.
Qed.

Lemma portfolio_overview_shown (c : Collaborators) (pg : page)
    (p : gmap string Entry.t) :
  portfolio (session pg) = Some p →
  p ≠ ∅ →
  let summary := valuate (holdings_of p) (price_lookup c) in
  rendered (run (portfolio_overview c) pg) =
    rendered pg ++
    [Divider; Subheader "💼 Portföy Özeti";
     Metric "Toplam Değer" (Price (total_value summary)) NoDelta;
     Metric "Toplam Maliyet" (Price (total_cost summary)) NoDelta;
     Metric "Kar/Zarar" (Price (total_value summary - total_cost summary))
       (Pct (if decide (0 < total_cost summary)%Qc
             then ((total_value summary - total_cost summary)
                   / total_cost summary * hundred)%Qc
             else 0%Qc));
     Metric "Hisse Sayısı" (Count (size p)) NoDelta].
Proof.
  intros Hp Hne summary.
  unfold run, portfolio_overview, get_portfolio_summary.
  unfold mbind, M_bind, mret, M_ret, lift, get_session. simpl.
  unfold has_portfolio. rewrite Hp, (bool_decide_eq_true_2 _ Hne). simpl.
  rewrite Hp, profit_loss_value. simpl. by rewrite <- !app_assoc.
Qed.

(** C8: loading keys the portfolio by symbol.  After the load the session
    holds the mapping built from the store's rows, in which each symbol has
    the entry of the last row carrying it, and the count shown in the summary
    strip is the number of distinct symbols among the rows. *)
Theorem one_holding_per_symbol (c : Collaborators) (pg : page)
    (user_id : nat) :
  get_user_id c = Some user_id →
  get_user_portfolio c user_id ≠ [] →
  let rows := get_user_portfolio c user_id in
  let loaded := run (load_user_portfolio c) pg in
  portfolio (session loaded) = Some (rows_to_portfolio rows) ∧
  (∀ sym, rows_to_portfolio rows !! sym =
            entry_of_row <$> last (filter (λ row, symbol row = sym) rows)) ∧
  (∀ pg', session pg' = session loaded →
     last (rendered (run (portfolio_overview c) pg')) =
       Some (Metric "Hisse Sayısı"
               (Count (length (remove_dups (symbol <$> rows)))) NoDelta)).
Proof.
  intros Hid Hrows rows loaded.
  pose proof (load_user_portfolio_session c pg user_id Hid Hrows) as Hloaded.
  split; [done|]. split; [apply rows_to_portfolio_lookup|].
  intros pg' Hsession. fold loaded in Hloaded. rewrite <- Hsession in Hloaded.
  rewrite (portfolio_overview_shown c pg' _ Hloaded)
    by by apply rows_to_portfolio_nonempty.
  rewrite rows_to_portfolio_size.
  by rewrite (last_app_cons _ _ Divider).
Qed.

Lemma one_holding_per_symbol_witness :
  let rows := [holding "AAPL" 10 100; holding "TSLA" 5 200;
               holding "AAPL" 3 120] in
  let c := visit rows steady_source "" in
  let loaded := run (load_user_portfolio c) (fresh_page no_session) in
  portfolio (session loaded) = Some (rows_to_portfolio rows) ∧
  (∀ sym, rows_to_portfolio rows !! sym =
            entry_of_row <$> last (filter (λ row, symbol row = sym) rows)) ∧
  (∀ pg', session pg' = session loaded →
     last (rendered (run (portfolio_overview c) pg')) =
       Some (Metric "Hisse Sayısı"
               (Count (length (remove_dups (symbol <$> rows)))) NoDelta)).
Proof.
  apply (one_holding_per_symbol
           (visit [holding "AAPL" 10 100; holding "TSLA" 5 200;
                   holding "AAPL" 3 120] steady_source "")
           (fresh_page no_session) 7).
  - reflexivity.
  - discriminate.
Defined.

(** Three rows over two symbols: two entries, the later AAPL row kept. *)
Lemma rows_to_portfolio_example :
  let p := rows_to_portfolio [holding "AAPL" 10 100; holding "TSLA" 5 200;
                              holding "AAPL" 3 120] in
  size p = 2 ∧ p !! "AAPL" = Some (entry_of_row (holding "AAPL" 3 120)).
Proof.
  intros p. unfold p. split.
  - rewrite rows_to_portfolio_size. reflexivity.
  - rewrite rows_to_portfolio_lookup. reflexivity.
Qed.

(** ** The aggregator's totals (C2, C5, C7) *)

Lemma sum_Qc_cons (x : Qc) (l : list Qc) :
  sum_Qc (x :: l) = (x + sum_Qc l)%Qc.
Proof. reflexivity. Qed.

Lemma valuate_fold (price_lookup : string → option Qc)
    (holdings : list Holding) (acc : PortfolioSummary) :
  foldl (valuate_step price_lookup) acc holdings =
    {| total_value :=
         (total_value acc + sum_Qc (market_value price_lookup <$> holdings))%Qc;
       total_cost := (total_cost acc + sum_Qc (cost_basis <$> holdings))%Qc;
       holdings_count := holdings_count acc + length holdings |}.
Proof.
  revert acc. induction holdings as [|h holdings IH]; intros acc.
  - destruct acc as [value cost count]; simpl. f_equal; ring || lia.
  - cbn [foldl]. rewrite IH, !fmap_cons, !sum_Qc_cons.
    unfold valuate_step. cbn [total_value total_cost holdings_count length].
    unfold market_value at 2, cost_basis at 2.
    f_equal; [|ring|lia].
    destruct (price_lookup (symbol h)); ring.
Qed.

Lemma valuate_totals (price_lookup : string → option Qc)
    (holdings : list Holding) :
  valuate holdings price_lookup =
    {| total_value := sum_Qc (market_value price_lookup <$> holdings);
       total_cost := sum_Qc (cost_basis <$> holdings);
       holdings_count := length holdings |}.
Proof.
  unfold valuate. rewrite valuate_fold. simpl. f_equal; ring.
Qed.

Lemma sum_Qc_app (l k : list Qc) : sum_Qc (l ++ k) = (sum_Qc l + sum_Qc k)%Qc.
Proof. induction l as [|x l IH]; simpl; [ring|]. rewrite IH. ring. Qed.

Lemma sum_Qc_nonneg (l : list Qc) :
  Forall (λ x, (0 ≤ x)%Qc) l → (0 ≤ sum_Qc l)%Qc.
Proof.
  induction 1 as [|x l Hx _ IH]; simpl; [apply Qcle_refl|].
  replace 0%Qc with (0 + 0)%Qc by ring. by apply Qcplus_le_compat.
Qed.

Lemma Qcmult_nonneg (x y : Qc) : (0 ≤ x)%Qc → (0 ≤ y)%Qc → (0 ≤ x * y)%Qc.
Proof.
  intros Hx Hy. replace 0%Qc with (0 * y)%Qc by ring.
  by apply Qcmult_le_compat_r.
Qed.

(** C2: a holding whose symbol has no available price leaves [total_value]
    as it is without that holding, while its [avg_cost × quantity] is added to
    [total_cost] and it is counted in [holdings_count]; this holds wherever
    the holding stands in the sequence, in particular when it is the only one
    without a price. *)
Theorem valuate_priceless_holding (price_lookup : string → option Qc)
    (before after : list Holding) (h : Holding) :
  price_lookup (symbol h) = None →
  let all := valuate (before ++ h :: after) price_lookup in
  let others := valuate (before ++ after) price_lookup in
  total_value all = total_value others ∧
  total_cost all = (total_cost others + avg_cost h * quantity h)%Qc ∧
  holdings_count all = S (holdings_count others).
Proof.
  intros Hprice all others. unfold all, others.
  rewrite !valuate_totals. simpl.
  rewrite !fmap_app, !fmap_cons, !sum_Qc_app, !length_app. simpl.
  unfold market_value at 2, cost_basis at 2. rewrite Hprice.
  repeat split; ring || lia.
Qed.

(** C5: when every holding has an available price, [total_value] is exactly
    the sum of [price × quantity] and [total_cost] exactly the sum of
    [avg_cost × quantity], as rationals, with no rounding. *)
Theorem valuate_exact_sums (price_lookup : string → option Qc)
    (holdings : list Holding) (prices : list Qc) :
  holdings ≠ [] →
  Forall2 (λ h price, price_lookup (symbol h) = Some price) holdings prices →
  total_value (valuate holdings price_lookup) =
    sum_Qc (zip_with (λ h price, price * quantity h)%Qc holdings prices) ∧
  total_cost (valuate holdings price_lookup) =
    sum_Qc ((λ h, avg_cost h * quantity h)%Qc <$> holdings).
Proof.
  intros _ Hprices. rewrite valuate_totals.
  cbn [total_value total_cost]. split; [|done].
  induction Hprices as [|h price holdings prices Hprice _ IH]; [done|].
  rewrite fmap_cons. cbn [zip_with]. rewrite !sum_Qc_cons, IH.
  unfold market_value at 1. by rewrite Hprice.
Qed.

Lemma valuate_priceless_holding_witness :
  let all :=
    valuate ([holding "AAPL" 10 100] ++ holding "TSLA" 5 200 :: []) aapl_only in
  let others := valuate ([holding "AAPL" 10 100] ++ []) aapl_only in
  total_value all = total_value others ∧
  total_cost all =
    (total_cost others
     + avg_cost (holding "TSLA" 5 200) * quantity (holding "TSLA" 5 200))%Qc ∧
  holdings_count all = S (holdings_count others).
Proof.
  apply (valuate_priceless_holding aapl_only [holding "AAPL" 10 100] []
           (holding "TSLA" 5 200)).
  reflexivity.
Defined.

Lemma valuate_exact_sums_witness :
  total_value
    (valuate [holding "AAPL" 10 100; holding "TSLA" 5 200]
       (λ _, Some (Qc_of_Z 150))) =
    sum_Qc (zip_with (λ h price, price * quantity h)%Qc
              [holding "AAPL" 10 100; holding "TSLA" 5 200]
              [Qc_of_Z 150; Qc_of_Z 150]) ∧
  total_cost
    (valuate [holding "AAPL" 10 100; holding "TSLA" 5 200]
       (λ _, Some (Qc_of_Z 150))) =
    sum_Qc ((λ h, avg_cost h * quantity h)%Qc
              <$> [holding "AAPL" 10 100; holding "TSLA" 5 200]).
Proof.
  apply (valuate_exact_sums (λ _, Some (Qc_of_Z 150))
           [holding "AAPL" 10 100; holding "TSLA" 5 200]
           [Qc_of_Z 150; Qc_of_Z 150]).
  - discriminate.
  - repeat constructor.
Defined.

(** The spec's scenario: value 1500, cost 2000, two holdings, a loss of 500,
    which is 25 percent. *)
Lemma valuate_scenario :
  let summary :=
    valuate [holding "AAPL" 10 100; holding "TSLA" 5 200] aapl_only in
  total_value summary = Qc_of_Z 1500 ∧
  total_cost summary = Qc_of_Z 2000 ∧
  holdings_count summary = 2 ∧
  profit_loss summary = Ok (Qc_of_Z (-500), Qc_of_Z (-25)).
Proof.
  intros summary.
  assert (total_value summary = Qc_of_Z 1500) as Hvalue
    by by apply Qc_is_canon.
  assert (total_cost summary = Qc_of_Z 2000) as Hcost
    by by apply Qc_is_canon.
  repeat split; [done..|].
  rewrite profit_loss_value, Hvalue, Hcost.
  rewrite decide_True by done.
  f_equal. f_equal; by apply Qc_is_canon.
Qed.

Lemma valuate_empty (price_lookup : string → option Qc) :
  valuate [] price_lookup = empty_summary.
Proof. reflexivity. Qed.

(** *** Non-negative totals (C7) *)

(** C7, refuted as stated: a negative price makes [total_value] negative
    although quantity and average cost are non-negative. *)
Lemma valuate_negative_price :
  Forall valid_holding [holding "CL" 1 0] ∧
  ¬ (0 ≤ total_value
           (valuate [holding "CL" 1 0] (λ _, Some (Qc_of_Z (-1)))))%Qc.
Proof.
  split.
  - repeat constructor; by vm_compute.
  - intros Hle. vm_compute in Hle. by apply Hle.
Qed.

Lemma remove_holding_valid (sym : string) (holdings : list Holding) :
  Forall valid_holding holdings →
  Forall valid_holding (remove_holding sym holdings).
Proof.
  rewrite !Forall_forall. intros Hall h Hh.
  apply list_elem_of_filter in Hh as [_ Hh]. by apply Hall.
Qed.

Lemma apply_op_valid (holdings : list Holding) (o : portfolio_op) :
  Forall valid_holding holdings → valid_op o →
  Forall valid_holding (apply_op holdings o).
Proof.
  intros Hall Ho. destruct o as [h|h|sym]; simpl in *.
  - apply Forall_app. split; [by apply remove_holding_valid|by constructor].
  - unfold update_holding. apply Forall_fmap.
    eapply Forall_impl; [exact Hall|]. intros h' Hh'. simpl. by case_decide.
  - by apply remove_holding_valid.
Qed.

Lemma apply_ops_valid (ops : list portfolio_op) (holdings : list Holding) :
  Forall valid_holding holdings → Forall valid_op ops →
  Forall valid_holding (foldl apply_op holdings ops).
Proof.
  intros Hall Hops. revert holdings Hall.
  induction Hops as [|o ops Ho _ IH]; intros holdings Hall; [done|].
  simpl. apply IH. by apply apply_op_valid.
Qed.

Lemma cost_basis_nonneg (h : Holding) : valid_holding h → (0 ≤ cost_basis h)%Qc.
Proof. intros [Hq Hc]. by apply Qcmult_nonneg. Qed.

Lemma market_value_nonneg (price_lookup : string → option Qc) (h : Holding) :
  (∀ sym price, price_lookup sym = Some price → (0 ≤ price)%Qc) →
  valid_holding h → (0 ≤ market_value price_lookup h)%Qc.
Proof.
  intros Hprices [Hq Hc]. unfold market_value.
  destruct (price_lookup (symbol h)) as [price|] eqn:Hprice; [|apply Qcle_refl].
  apply Qcmult_nonneg; [by eapply Hprices|done].
Qed.

(** C7, amended: for holdings with non-negative quantities and average costs,
    also after any sequence of add, update and remove operations with such
    holdings, [total_cost] is non-negative, and [total_value] is non-negative
    provided every available price is non-negative. *)
Theorem valuate_totals_nonneg (price_lookup : string → option Qc)
    (holdings : list Holding) (ops : list portfolio_op) :
  Forall valid_holding holdings →
  Forall valid_op ops →
  let summary := valuate (foldl apply_op holdings ops) price_lookup in
  (0 ≤ total_cost summary)%Qc ∧
  ((∀ sym price, price_lookup sym = Some price → (0 ≤ price)%Qc) →
   (0 ≤ total_value summary)%Qc).
Proof.
  intros Hall Hops summary. unfold summary.
  pose proof (apply_ops_valid ops holdings Hall Hops) as Hvalid.
  rewrite valuate_totals. cbn [total_cost total_value]. split.
  - apply sum_Qc_nonneg, Forall_fmap.
    eapply Forall_impl; [exact Hvalid|]. apply cost_basis_nonneg.
  - intros Hprices. apply sum_Qc_nonneg, Forall_fmap.
    eapply Forall_impl; [exact Hvalid|].
    intros h. by apply market_value_nonneg.
Qed.

Lemma valuate_totals_nonneg_witness :
  let summary :=
    valuate (foldl apply_op [holding "AAPL" 10 100]
               [Add (holding "TSLA" 5 200); Update (holding "AAPL" 3 120);
                Remove "TSLA"]) aapl_only in
  (0 ≤ total_cost summary)%Qc ∧
  ((∀ sym price, aapl_only sym = Some price → (0 ≤ price)%Qc) →
   (0 ≤ total_value summary)%Qc).
Proof.
  apply (valuate_totals_nonneg aapl_only [holding "AAPL" 10 100]
           [Add (holding "TSLA" 5 200); Update (holding "AAPL" 3 120);
            Remove "TSLA"]).
  - repeat constructor; by vm_compute.
  - repeat constructor; by vm_compute.
Defined.

(** * Further properties of the script *)

(** ** The sign of the percentage change *)

Lemma Qc_scaled_pos (x k : Qc) : (0 < k)%Qc → (0 < x * k)%Qc ↔ (0 < x)%Qc.
Proof.
  intros Hk. rewrite (Qcmult_lt_mono_pos_r 0 x k Hk). by rewrite Qcmult_0_l.
Qed.

Lemma Qc_scaled_neg (x k : Qc) : (0 < k)%Qc → (x * k < 0)%Qc ↔ (x < 0)%Qc.
Proof.
  intros Hk. rewrite (Qcmult_lt_mono_pos_r x 0 k Hk). by rewrite Qcmult_0_l.
Qed.

Lemma Qc_diff_pos (x y : Qc) : (0 < x - y)%Qc ↔ (y < x)%Qc.
Proof.
  rewrite (Qcplus_lt_mono_r 0 (x - y) y).
  replace (x - y + y)%Qc with x by ring. by rewrite Qcplus_0_l.
Qed.

Lemma Qc_diff_neg (x y : Qc) : (x - y < 0)%Qc ↔ (x < y)%Qc.
Proof.
  rewrite (Qcplus_lt_mono_r (x - y) 0 y).
  replace (x - y + y)%Qc with x by ring. by rewrite Qcplus_0_l.
Qed.

(** X2: against a nonzero reference the percentage is a number, which is 0
    exactly when the price has not moved and, for a positive reference,
    positive exactly when the price has risen above it; against a zero
    reference it is not a number at all, even when the two prices are equal:
    NaN for a zero price, an infinity otherwise. *)
Theorem change_percent_sign (current reference : Qc) :
  (reference ≠ 0%Qc →
   ∃ pct : Qc,
     change_percent current reference = Finite pct ∧
     (pct = 0%Qc ↔ current = reference) ∧
     ((0 < reference)%Qc → ((0 < pct)%Qc ↔ (reference < current)%Qc))) ∧
  (reference = 0%Qc →
   change_percent current reference =
     if decide (current = 0%Qc) then NaN
     else Infinity (bool_decide (current < 0)%Qc)).
Proof.
  split.
  - intros Href. eexists. split; [by apply change_percent_finite|]. split.
    + split.
      * intros Hzero.
        assert (current - reference = 0)%Qc as Hdiff.
        { replace (current - reference)%Qc
            with ((current - reference) / reference * hundred
                  * (reference / hundred))%Qc
            by (field; split; [apply hundred_nonzero|done]).
          rewrite Hzero. ring. }
        replace current with (current - reference + reference)%Qc by ring.
        rewrite Hdiff. ring.
      * intros ->. replace (reference - reference)%Qc with 0%Qc by ring.
        by rewrite Qc_zero_div, Qcmult_0_l.
    + intros Hpos.
      assert (0 < / reference * hundred)%Qc as Hk
        by (apply Qcmult_pos_pos; [by apply Qcinv_pos|apply hundred_pos]).
      replace ((current - reference) / reference * hundred)%Qc
        with ((current - reference) * (/ reference * hundred))%Qc
        by (unfold Qcdiv; ring).
      by rewrite (Qc_scaled_pos _ _ Hk), Qc_diff_pos.
  - intros Href. by rewrite change_percent_value, decide_True.
Qed.

Lemma change_percent_sign_witness :
  ∃ pct : Qc,
    change_percent (Qc_of_Z 110) (Qc_of_Z 100) = Finite pct ∧
    (pct = 0%Qc ↔ Qc_of_Z 110 = Qc_of_Z 100) ∧
    ((0 < Qc_of_Z 100)%Qc → ((0 < pct)%Qc ↔ (Qc_of_Z 100 < Qc_of_Z 110)%Qc)).
Proof.
  apply (proj1 (change_percent_sign (Qc_of_Z 110) (Qc_of_Z 100))).
  intros H. apply (f_equal this) in H. discriminate H.
Defined.

(** ** The profit-and-loss figures *)

(** X3: the percentage shown beside the profit or loss has the sign of the
    profit or loss whenever the total cost is positive, and is 0 whenever the
    total cost is zero or negative. *)
Theorem profit_loss_sign (summary : PortfolioSummary) (absolute pct : Qc) :
  profit_loss summary = Ok (absolute, pct) →
  ((0 < total_cost summary)%Qc →
     ((0 < pct)%Qc ↔ (total_cost summary < total_value summary)%Qc) ∧
     ((pct < 0)%Qc ↔ (total_value summary < total_cost summary)%Qc)) ∧
  ((total_cost summary ≤ 0)%Qc → pct = 0%Qc).
Proof.
  rewrite profit_loss_value. intros [= <- <-]. split.
  - intros Hcost. rewrite decide_True by done.
    assert (0 < / total_cost summary * hundred)%Qc as Hk
      by (apply Qcmult_pos_pos; [by apply Qcinv_pos|apply hundred_pos]).
    replace ((total_value summary - total_cost summary)
             / total_cost summary * hundred)%Qc
      with ((total_value summary - total_cost summary)
            * (/ total_cost summary * hundred))%Qc
      by (unfold Qcdiv; ring).
    split.
    + by rewrite (Qc_scaled_pos _ _ Hk), Qc_diff_pos.
    + by rewrite (Qc_scaled_neg _ _ Hk), Qc_diff_neg.
  - intros Hcost. rewrite decide_False; [done|]. by apply Qcle_not_lt.
Qed.

Lemma profit_loss_sign_witness :
  ((0 < total_cost losing_summary)%Qc →
     ((0 < Qc_of_Z (-25))%Qc ↔
        (total_cost losing_summary < total_value losing_summary)%Qc) ∧
     ((Qc_of_Z (-25) < 0)%Qc ↔
        (total_value losing_summary < total_cost losing_summary)%Qc)) ∧
  ((total_cost losing_summary ≤ 0)%Qc → Qc_of_Z (-25) = 0%Qc).
Proof.
  apply (profit_loss_sign losing_summary (Qc_of_Z (-500)) (Qc_of_Z (-25))).
  rewrite profit_loss_value. rewrite decide_True by done.
  f_equal. f_equal; by apply Qc_is_canon.
Defined.

(** ** Loading the portfolio into the session *)

(** X4: without a user id, or when the store has no rows for the user, the
    load changes nothing: the session keeps whatever portfolio it held. *)
Theorem load_without_rows_changes_nothing (c : Collaborators) (pg : page) :
  (get_user_id c = None ∨
   ∃ user_id, get_user_id c = Some user_id ∧
              get_user_portfolio c user_id = []) →
  load_user_portfolio c pg = (pg, Ok ()).
Proof.
  unfold load_user_portfolio. intros [->|(user_id & -> & ->)]; done.
Qed.

Lemma load_without_rows_changes_nothing_witness :
  load_user_portfolio (visit [] steady_source "") (fresh_page one_position) =
    (fresh_page one_position, Ok ()).
Proof.
  apply (load_without_rows_changes_nothing (visit [] steady_source "")
           (fresh_page one_position)).
  right. exists 7. split; reflexivity.
Defined.

Lemma load_user_portfolio_rows (c : Collaborators) (pg : page)
    (user_id : nat) :
  get_user_id c = Some user_id →
  get_user_portfolio c user_id ≠ [] →
  load_user_portfolio c pg =
    ({| rendered := rendered pg;
        metric_cols := metric_cols pg;
        session :=
          {| portfolio :=
               Some (rows_to_portfolio (get_user_portfolio c user_id));
             theme := theme (session pg) |} |}, Ok ()).
Proof.
  intros Hid Hrows. unfold load_user_portfolio. rewrite Hid.
  by rewrite bool_decide_eq_true_2.
Qed.

(** X5: when the store has rows, the load replaces the session's portfolio
    wholesale: afterwards a symbol has an entry exactly when some row carries
    it, whatever the session held before, and the theme is untouched. *)
Theorem load_replaces_portfolio (c : Collaborators) (pg : page)
    (user_id : nat) :
  get_user_id c = Some user_id →
  get_user_portfolio c user_id ≠ [] →
  let after := session (run (load_user_portfolio c) pg) in
  theme after = theme (session pg) ∧
  ∃ p, portfolio after = Some p ∧
       ∀ sym, is_Some (p !! sym) ↔
              sym ∈ symbol <$> get_user_portfolio c user_id.
Proof.
  intros Hid Hrows after. unfold after, run.
  rewrite (load_user_portfolio_rows c pg user_id Hid Hrows).
  split; [done|]. eexists. split; [done|]. intros sym.
  by rewrite <- elem_of_dom, rows_to_portfolio_dom, elem_of_list_to_set.
Qed.

Lemma load_replaces_portfolio_witness :
  let c := visit [holding "TSLA" 5 200] steady_source "" in
  let after :=
    session (run (load_user_portfolio c) (fresh_page one_position)) in
  theme after = theme (session (fresh_page one_position)) ∧
  ∃ p, portfolio after = Some p ∧
       ∀ sym, is_Some (p !! sym) ↔
              sym ∈ symbol <$> get_user_portfolio c 7.
Proof.
  apply (load_replaces_portfolio (visit [holding "TSLA" 5 200] steady_source "")
           (fresh_page one_position) 7).
  - reflexivity.
  - discriminate.
Defined.

(** X6: loading is idempotent: a second load, as on a rerun of the script
    against the same store, leaves the page exactly as the first one did. *)
Theorem load_user_portfolio_idempotent (c : Collaborators) (pg : page) :
  run (load_user_portfolio c) (run (load_user_portfolio c) pg) =
    run (load_user_portfolio c) pg.
Proof.
  unfold run. destruct (get_user_id c) as [user_id|] eqn:Hid.
  - destruct (decide (get_user_portfolio c user_id = [])) as [Hrows|Hrows].
    + rewrite !(load_without_rows_changes_nothing c) by eauto. done.
    + by rewrite !(load_user_portfolio_rows c _ user_id Hid Hrows).
  - rewrite !(load_without_rows_changes_nothing c) by eauto. done.
Qed.

(** X7: when the rows carry pairwise distinct symbols nothing is lost: the
    mapping has as many entries as there are rows and every row is found
    under its symbol. *)
Theorem rows_to_portfolio_distinct (rows : list Holding) :
  NoDup (symbol <$> rows) →
  size (rows_to_portfolio rows) = length rows ∧
  ∀ row, row ∈ rows →
         rows_to_portfolio rows !! symbol row = Some (entry_of_row row).
Proof.
  intros Hdistinct. split.
  - rewrite <- size_dom, rows_to_portfolio_dom.
    by rewrite size_list_to_set, length_fmap.
  - induction rows as [|last_row rows IH] using rev_ind; intros row Hrow.
    { by apply elem_of_nil in Hrow. }
    rewrite fmap_app in Hdistinct.
    apply NoDup_app in Hdistinct as (Hrows & Hfresh & _).
    rewrite rows_to_portfolio_snoc.
    apply elem_of_app in Hrow as [Hrow|Hrow%list_elem_of_singleton].
    + rewrite lookup_insert_ne; [by apply IH|].
      intros Hsame. apply (Hfresh (symbol row)).
      * by apply list_elem_of_fmap_2.
      * rewrite <- Hsame. simpl. by apply list_elem_of_singleton.
    + subst row. by rewrite lookup_insert_eq.
Qed.

Lemma rows_to_portfolio_distinct_witness :
  size (rows_to_portfolio [holding "AAPL" 10 100; holding "TSLA" 5 200]) =
    length [holding "AAPL" 10 100; holding "TSLA" 5 200] ∧
  ∀ row, row ∈ [holding "AAPL" 10 100; holding "TSLA" 5 200] →
         rows_to_portfolio [holding "AAPL" 10 100; holding "TSLA" 5 200]
           !! symbol row = Some (entry_of_row row).
Proof.
  apply (rows_to_portfolio_distinct
           [holding "AAPL" 10 100; holding "TSLA" 5 200]).
  simpl. apply NoDup_cons_2; [|apply NoDup_singleton].
  intros Hin. apply list_elem_of_singleton in Hin. discriminate Hin.
Defined.

(** ** The session state across the dashboard *)

Lemma keeps_session_ret {A} (a : A) : keeps_session (mret a).
Proof. by intros pg. Qed.

Lemma keeps_session_lift {A} (r : result A) : keeps_session (lift r).
Proof. by intros pg. Qed.

Lemma keeps_session_st (w : widget) : keeps_session (st w).
Proof. by intros pg. Qed.

Lemma keeps_session_bind_metric_cols : keeps_session bind_metric_cols.
Proof. by intros pg. Qed.

Lemma keeps_session_get_metric_col1 : keeps_session get_metric_col1.
Proof. intros pg. unfold run, get_metric_col1. by destruct (metric_cols pg) as [[]|]. Qed.

Lemma keeps_session_get_metric_col2 : keeps_session get_metric_col2.
Proof. intros pg. unfold run, get_metric_col2. by destruct (metric_cols pg) as [[]|]. Qed.

Lemma keeps_session_get_session : keeps_session get_session.
Proof. by intros pg. Qed.

Lemma keeps_session_bind {A B} (m : M A) (k : A → M B) :
  keeps_session m → (∀ a, keeps_session (k a)) → keeps_session (m ≫= k).
Proof.
  intros Hm Hk pg. specialize (Hm pg). unfold run, mbind, M_bind in *.
  destruct (m pg) as [pg' [a|e]]; simpl in *; [|done].
  by rewrite <- Hm, <- (Hk a pg').
Qed.

Lemma keeps_session_try_except (body : M unit) (handler : exn → M unit) :
  keeps_session body → (∀ e, keeps_session (handler e)) →
  keeps_session (try_except body handler).
Proof.
  intros Hbody Hhandler pg. specialize (Hbody pg). unfold run, try_except in *.
  destruct (body pg) as [pg' [[]|e]]; simpl in *; [done|].
  destruct (is_Exception e); [|done].
  by rewrite <- Hbody, <- (Hhandler e pg').
Qed.

Ltac keeps_session_step :=
  first
    [ apply keeps_session_bind; [|intros ?]
    | apply keeps_session_try_except; [|intros ?]
    | apply keeps_session_st
    | apply keeps_session_lift
    | apply keeps_session_ret
    | apply keeps_session_bind_metric_cols
    | apply keeps_session_get_metric_col1
    | apply keeps_session_get_metric_col2
    | apply keeps_session_get_session
    | match goal with
      | |- keeps_session (if ?b then _ else _) => destruct b
      end ].

Lemma bist_overview_keeps_session (c : Collaborators) :
  keeps_session (bist_overview c).
Proof. unfold bist_overview. repeat keeps_session_step. Qed.

Lemma sp500_overview_keeps_session (c : Collaborators) :
  keeps_session (sp500_overview c).
Proof. unfold sp500_overview. repeat keeps_session_step. Qed.

Lemma quick_search_keeps_session (c : Collaborators) :
  keeps_session (quick_search c).
Proof. unfold quick_search. repeat keeps_session_step. Qed.

Lemma portfolio_overview_keeps_session (c : Collaborators) :
  keeps_session (portfolio_overview c).
Proof.
  unfold portfolio_overview, get_portfolio_summary.
  repeat keeps_session_step.
Qed.

Lemma news_and_footer_keeps_session : keeps_session news_and_footer.
Proof. unfold news_and_footer. repeat keeps_session_step. Qed.

(** X8: nothing below the sidebar writes the session state: whatever the
    quote source returns or raises, the dashboard leaves the session's
    portfolio and theme as it found them. *)
Theorem dashboard_keeps_session (c : Collaborators) (pg : page) :
  session (run (dashboard c) pg) = session pg.
Proof.
  revert pg. change (keeps_session (dashboard c)). unfold dashboard.
  repeat first
    [ apply bist_overview_keeps_session
    | apply sp500_overview_keeps_session
    | apply quick_search_keeps_session
    | apply portfolio_overview_keeps_session
    | apply news_and_footer_keeps_session
    | keeps_session_step ].
Qed.

(** ** The page as a whole *)

(** A visitor who is not signed in gets the login page and nothing else:
    no portfolio is loaded into the session and no part of the dashboard is
    rendered. *)
Theorem unauthenticated_sees_login_only (c : Collaborators) (pg : page) :
  is_authenticated c = false →
  main c pg = st LoginPage pg.
Proof. intros Hauth. unfold main. by rewrite Hauth. Qed.

Lemma unauthenticated_sees_login_only_witness :
  main stranger (fresh_page one_position) =
    st LoginPage (fresh_page one_position).
Proof.
  apply (unauthenticated_sees_login_only stranger (fresh_page one_position)).
  reflexivity.
Defined.

(** X10: when the toggle differs from the stored theme, the script records
    the new theme in the session and stops for a rerun right after the
    toggle: the run ends with the control-flow signal, only the title and the
    top of the sidebar have been rendered, and the portfolio is as the load
    left it. *)
Theorem theme_change_reruns (c : Collaborators) (s : session_state) :
  is_authenticated c = true →
  theme_toggle c ≠
    bool_decide (default "light"
                   (get_user_preferences c (get_user_id c) !! "theme")
                 = "dark") →
  let final := run (main c) (fresh_page s) in
  outcome (main c) (fresh_page s) = Raise ScriptControl ∧
  theme (session final) =
    Some (if theme_toggle c then "dark" else "light") ∧
  portfolio (session final) =
    portfolio (session (run (load_user_portfolio c) (fresh_page s))) ∧
  rendered final =
    [Title "🏦 Altair Finance"; Divider; UserMenu; Header "⚙️ Ayarlar";
     Toggle "🌙 Karanlık Tema" (negb (theme_toggle c))].
Proof.
  intros Hauth Htoggle final. unfold final, outcome, run, main.
  rewrite Hauth. simpl negb. cbv iota.
  assert (bool_decide
            (default "light"
               (get_user_preferences c (get_user_id c) !! "theme") = "dark")
          = negb (theme_toggle c)) as Hdark.
  { destruct (theme_toggle c), (bool_decide _); done. }
  unfold sidebar. rewrite Hdark.
  rewrite (bool_decide_eq_true_2 (theme_toggle c ≠ negb (theme_toggle c)))
    by (by destruct (theme_toggle c)).
  unfold load_user_portfolio.
  destruct (get_user_id c) as [user_id|]; [|done].
  by destruct (bool_decide (get_user_portfolio c user_id ≠ [])).
Qed.

Lemma theme_change_reruns_witness :
  let c := switching_to_dark [holding "AAPL" 10 100] in
  let final := run (main c) (fresh_page no_session) in
  outcome (main c) (fresh_page no_session) = Raise ScriptControl ∧
  theme (session final) = Some (if theme_toggle c then "dark" else "light") ∧
  portfolio (session final) =
    portfolio (session (run (load_user_portfolio c) (fresh_page no_session))) ∧
  rendered final =
    [Title "🏦 Altair Finance"; Divider; UserMenu; Header "⚙️ Ayarlar";
     Toggle "🌙 Karanlık Tema" (negb (theme_toggle c))].
Proof.
  apply (theme_change_reruns (switching_to_dark [holding "AAPL" 10 100])
           no_session).
  - reflexivity.
  - discriminate.
Defined.

Lemma main_enters_dashboard (c : Collaborators) (s : session_state) :
  is_authenticated c = true →
  theme_toggle c =
    bool_decide (default "light"
                   (get_user_preferences c (get_user_id c) !! "theme")
                 = "dark") →
  ∃ pg,
    session pg = session (run (load_user_portfolio c) (fresh_page s)) ∧
    main c (fresh_page s) = dashboard c pg.
Proof.
  intros Hauth Htoggle. unfold main. rewrite Hauth. simpl negb. cbv iota.
  unfold load_user_portfolio, sidebar, run.
  rewrite (bool_decide_eq_false_2 (theme_toggle c ≠ _)) by (by intros []).
  destruct (get_user_id c) as [user_id|].
  - destruct (bool_decide (get_user_portfolio c user_id ≠ [])).
    + eexists. split; [|reflexivity]. reflexivity.
    + eexists. split; [|reflexivity]. reflexivity.
  - eexists. split; [|reflexivity]. reflexivity.
Qed.

Lemma news_and_footer_rendered (pg : page) :
  rendered (run news_and_footer pg) =
    rendered pg ++
    [Divider; Subheader "📰 Piyasa Haberleri";
     Info "Piyasa haberleri entegrasyonu için harici API gerekiyor. Bu özellik ileride eklenebilir.";
     Divider; Footer].
Proof. unfold run, news_and_footer. simpl. by rewrite <- !app_assoc. Qed.

(** X11: for a signed-in user who has not touched the theme toggle, and a
    quote source whose failures are ordinary exceptions, the script runs to
    its last line: it ends normally and the last widget rendered is the
    footer, whatever the quote source and the store returned. *)
Theorem main_renders_to_footer (c : Collaborators) (s : session_state) :
  is_authenticated c = true →
  theme_toggle c =
    bool_decide (default "light"
                   (get_user_preferences c (get_user_id c) !! "theme")
                 = "dark") →
  (∀ sym period e,
     get_stock_data c sym period = Raise e → is_Exception e = true) →
  outcome (main c) (fresh_page s) = Ok () ∧
  last (rendered (run (main c) (fresh_page s))) = Some Footer.
Proof.
  intros Hauth Htoggle ordinary.
  destruct (main_enters_dashboard c s Hauth Htoggle) as (pg & _ & Hmain).
  unfold outcome, run. rewrite Hmain, (dashboard_runs_through c pg ordinary).
  match goal with
  | |- (news_and_footer ?p).2 = _ ∧ _ => set (before_footer := p)
  end.
  split; [exact (news_and_footer_ok before_footer)|].
  change (news_and_footer before_footer).1
    with (run news_and_footer before_footer).
  rewrite news_and_footer_rendered.
  by rewrite (last_app_cons _ _ Divider).
Qed.

Lemma main_renders_to_footer_witness :
  outcome (main (visit [holding "AAPL" 10 100] patchy_source "spy"))
    (fresh_page no_session) = Ok () ∧
  last (rendered (run (main (visit [holding "AAPL" 10 100] patchy_source "spy"))
                    (fresh_page no_session))) = Some Footer.
Proof.
  apply (main_renders_to_footer
           (visit [holding "AAPL" 10 100] patchy_source "spy") no_session).
  - reflexivity.
  - reflexivity.
  - apply patchy_source_ordinary.
Defined.

(** X12: end to end, for a signed-in user with rows in the store, an
    untouched theme toggle and a quote source whose failures are ordinary
    exceptions, the page shows the holdings count metric, and the count is
    the number of distinct symbols among the store's rows. *)
Theorem main_shows_distinct_count (c : Collaborators) (s : session_state)
    (user_id : nat) :
  is_authenticated c = true →
  theme_toggle c =
    bool_decide (default "light"
                   (get_user_preferences c (get_user_id c) !! "theme")
                 = "dark") →
  (∀ sym period e,
     get_stock_data c sym period = Raise e → is_Exception e = true) →
  get_user_id c = Some user_id →
  get_user_portfolio c user_id ≠ [] →
  Metric "Hisse Sayısı"
    (Count (length (remove_dups (symbol <$> get_user_portfolio c user_id))))
    NoDelta
  ∈ rendered (run (main c) (fresh_page s)).
Proof.
  intros Hauth Htoggle ordinary Hid Hrows.
  destruct (main_enters_dashboard c s Hauth Htoggle) as (pg & Hsession & Hmain).
  unfold run at 1. rewrite Hmain, (dashboard_runs_through c pg ordinary).
  set (before :=
         run (quick_search c)
           (run (sp500_overview c)
              (run (bist_overview c)
                 (run (st (Subheader "📊 Piyasa Özeti")) pg)))).
  fold (run news_and_footer (run (portfolio_overview c) before)).
  assert (portfolio (session before) =
          Some (rows_to_portfolio (get_user_portfolio c user_id))) as Hbefore.
  { unfold before.
    rewrite quick_search_keeps_session, sp500_overview_keeps_session.
    rewrite bist_overview_keeps_session, keeps_session_st, Hsession.
    by apply load_user_portfolio_session. }
  rewrite news_and_footer_rendered.
  rewrite (portfolio_overview_shown c before _ Hbefore)
    by by apply rows_to_portfolio_nonempty.
  rewrite rows_to_portfolio_size.
  apply elem_of_app. left. apply elem_of_app. right.
  do 5 apply list_elem_of_further. apply list_elem_of_here.
Qed.

Lemma main_shows_distinct_count_witness :
  Metric "Hisse Sayısı"
    (Count (length (remove_dups
                      (symbol <$> [holding "AAPL" 10 100; holding "TSLA" 5 200;
                                   holding "AAPL" 3 120]))))
    NoDelta
  ∈ rendered
      (run (main (visit [holding "AAPL" 10 100; holding "TSLA" 5 200;
                         holding "AAPL" 3 120] patchy_source "spy"))
         (fresh_page no_session)).
Proof.
  apply (main_shows_distinct_count
           (visit [holding "AAPL" 10 100; holding "TSLA" 5 200;
                   holding "AAPL" 3 120] patchy_source "spy") no_session 7).
  - reflexivity.
  - reflexivity.
  - apply patchy_source_ordinary.
  - reflexivity.
  - discriminate.
Defined.

(** ** The two index blocks together *)

(** X13: starting with the metric columns unbound, the BIST 100 block binds
    them exactly when its series is non-empty, also when the latest open is
    zero (the division raises nothing, so line 85 is reached): only an empty
    series and a failed request leave them unbound. *)
Theorem bist_binds_columns_iff (c : Collaborators) (pg : page) :
  metric_cols pg = None →
  metric_cols (run (bist_overview c) pg) = Some (MetricCol1, MetricCol2) ↔
  ∃ rows row, get_stock_data c "XU100.IS" "1d" = Ok (rows ++ [row]).
Proof.
  intros Hunbound. unfold run.
  destruct (get_stock_data c "XU100.IS" "1d") as [data|e] eqn:Hdata.
  - destruct data as [|row rows _] using rev_ind.
    + rewrite bist_overview_empty by done. simpl. rewrite Hunbound.
      split; [done|]. intros (rows & row & Hrows).
      injection Hrows as Hrows. by destruct rows.
    + rewrite (bist_overview_nonempty c pg rows row Hdata). simpl.
      split; [|done]. intros _. by exists rows, row.
  - rewrite (bist_overview_raises c pg e Hdata).
    assert (metric_cols
              (if is_Exception e
               then st (Error "BIST 100 verisi alınırken hata" e) pg
               else (pg, Raise e)).1 = None) as ->
      by by destruct (is_Exception e).
    split; [done|]. by intros (rows & row & Hrows).
Qed.

Lemma bist_binds_columns_iff_witness :
  metric_cols (run (bist_overview (visit [] zero_open_source ""))
                 (fresh_page no_session)) = Some (MetricCol1, MetricCol2) ↔
  ∃ rows row,
    get_stock_data (visit [] zero_open_source "") "XU100.IS" "1d"
      = Ok (rows ++ [row]).
Proof.
  apply (bist_binds_columns_iff (visit [] zero_open_source "")
           (fresh_page no_session)).
  reflexivity.
Defined.

(** X14: when both index series are non-empty with a nonzero latest open,
    the two blocks in sequence render the BIST 100 metric in the first column
    and the S&P 500 metric in the second, each with the latest close, the
    change against the latest open and that change as a percentage of the
    open. *)
Theorem both_index_metrics (c : Collaborators) (pg : page)
    (bist sp500 : list Quote) (b s : Quote) :
  get_stock_data c "XU100.IS" "1d" = Ok (bist ++ [b]) →
  get_stock_data c "^GSPC" "1d" = Ok (sp500 ++ [s]) →
  Open b ≠ 0%Qc →
  Open s ≠ 0%Qc →
  rendered (run (sp500_overview c) (run (bist_overview c) pg)) =
    rendered pg ++
    [Within MetricCol1
       (Metric "BIST 100" (Price (Close b))
          (ChangeAndPct (Close b - Open b)
             ((Close b - Open b) / Open b * hundred)));
     Within MetricCol2
       (Metric "S&P 500" (Price (Close s))
          (ChangeAndPct (Close s - Open s)
             ((Close s - Open s) / Open s * hundred)))].
Proof.
  intros Hbist Hsp Hb Hs. unfold run.
  rewrite (bist_overview_nonempty c pg bist b Hbist).
  rewrite (sp500_overview_nonempty c _ sp500 s Hsp).
  rewrite !change_percent_finite by done.
  simpl. by rewrite <- app_assoc.
Qed.

Lemma both_index_metrics_witness :
  rendered (run (sp500_overview (visit [] steady_source ""))
              (run (bist_overview (visit [] steady_source ""))
                 (fresh_page no_session))) =
    rendered (fresh_page no_session) ++
    [Within MetricCol1
       (Metric "BIST 100" (Price (Close (quote 100 110)))
          (ChangeAndPct (Close (quote 100 110) - Open (quote 100 110))
             ((Close (quote 100 110) - Open (quote 100 110))
              / Open (quote 100 110) * hundred)));
     Within MetricCol2
       (Metric "S&P 500" (Price (Close (quote 100 110)))
          (ChangeAndPct (Close (quote 100 110) - Open (quote 100 110))
             ((Close (quote 100 110) - Open (quote 100 110))
              / Open (quote 100 110) * hundred)))].
Proof.
  apply (both_index_metrics (visit [] steady_source "")
           (fresh_page no_session) [] [] (quote 100 110) (quote 100 110)).
  - reflexivity.
  - reflexivity.
  - intros H. apply (f_equal this) in H. discriminate H.
  - intros H. apply (f_equal this) in H. discriminate H.
Defined.

(** X15: whatever the quote source does, as long as its failures are ordinary
    exceptions, each index block adds exactly one widget to the page: its
    metric, its warning, or its error notice. *)
Theorem index_block_adds_one_widget (c : Collaborators) (pg : page) :
  (∀ sym period e,
     get_stock_data c sym period = Raise e → is_Exception e = true) →
  (∃ w, rendered (run (bist_overview c) pg) = rendered pg ++ [w] ∧
        (shows_metric "BIST 100" w = true ∨
         w = Warning "BIST 100 verisi alınamadı" ∨
         ∃ e, w = Error "BIST 100 verisi alınırken hata" e)) ∧
  (∃ w, rendered (run (sp500_overview c) pg) = rendered pg ++ [w] ∧
        (shows_metric "S&P 500" w = true ∨
         w = Warning "S&P 500 verisi alınamadı" ∨
         ∃ e, w = Error "S&P 500 verisi alınırken hata" e)).
Proof.
  intros ordinary. unfold run. split.
  - destruct (get_stock_data c "XU100.IS" "1d") as [data|e] eqn:Hdata.
    + destruct data as [|row rows _] using rev_ind.
      * rewrite bist_overview_empty by done. eexists. split; [done|]. auto.
      * rewrite (bist_overview_nonempty c pg rows row Hdata).
        eexists. split; [done|]. by left.
    + rewrite (bist_overview_raises c pg e Hdata), (ordinary _ _ _ Hdata).
      eexists. split; [done|]. right; right. by eexists.
  - destruct (get_stock_data c "^GSPC" "1d") as [data|e] eqn:Hdata.
    + destruct data as [|row rows _] using rev_ind.
      * rewrite sp500_overview_empty by done. eexists. split; [done|]. auto.
      * rewrite (sp500_overview_nonempty c pg rows row Hdata).
        destruct (metric_cols pg) as [[col1 col2]|];
          (eexists; split; [done|]); [by left|right; right; by eexists].
    + rewrite (sp500_overview_raises c pg e Hdata), (ordinary _ _ _ Hdata).
      eexists. split; [done|]. right; right. by eexists.
Qed.

Lemma index_block_adds_one_widget_witness :
  (∃ w, rendered (run (bist_overview (visit [] patchy_source "spy"))
                    (fresh_page no_session)) =
          rendered (fresh_page no_session) ++ [w] ∧
        (shows_metric "BIST 100" w = true ∨
         w = Warning "BIST 100 verisi alınamadı" ∨
         ∃ e, w = Error "BIST 100 verisi alınırken hata" e)) ∧
  (∃ w, rendered (run (sp500_overview (visit [] patchy_source "spy"))
                    (fresh_page no_session)) =
          rendered (fresh_page no_session) ++ [w] ∧
        (shows_metric "S&P 500" w = true ∨
         w = Warning "S&P 500 verisi alınamadı" ∨
         ∃ e, w = Error "S&P 500 verisi alınırken hata" e)).
Proof.
  apply (index_block_adds_one_widget (visit [] patchy_source "spy")
           (fresh_page no_session)).
  apply patchy_source_ordinary.
Defined.

(** ** The summary strip without a portfolio *)

(** X16: when the session has no portfolio, or an empty one, the summary
    strip shows its heading and the note that no portfolio has been added, and
    no metric at all. *)
Theorem no_portfolio_shows_note (c : Collaborators) (pg : page) :
  (portfolio (session pg) = None ∨ portfolio (session pg) = Some ∅) →
  portfolio_overview c pg =
    ({| rendered :=
          rendered pg ++
          [Divider; Subheader "💼 Portföy Özeti";
           Info "Henüz portföy eklenmemiş. Portföy sayfasından hisse ekleyebilirsiniz."];
        metric_cols := metric_cols pg;
        session := session pg |}, Ok ()).
Proof.
  intros Hnone.
  assert (has_portfolio (session pg) = false) as Hhas.
  { unfold has_portfolio. destruct Hnone as [->| ->]; [done|].
    rewrite bool_decide_eq_false_2; [done|]. intros Hne. by apply Hne. }
  unfold portfolio_overview, mbind, M_bind, get_session. simpl.
  rewrite Hhas. unfold st. simpl. by rewrite <- !app_assoc.
Qed.

Lemma no_portfolio_shows_note_witness :
  portfolio_overview (visit [] steady_source "") (fresh_page no_session) =
    ({| rendered :=
          rendered (fresh_page no_session) ++
          [Divider; Subheader "💼 Portföy Özeti";
           Info "Henüz portföy eklenmemiş. Portföy sayfasından hisse ekleyebilirsiniz."];
        metric_cols := metric_cols (fresh_page no_session);
        session := session (fresh_page no_session) |}, Ok ()).
Proof.
  apply (no_portfolio_shows_note (visit [] steady_source "")
           (fresh_page no_session)).
  left. reflexivity.
Defined.

(** X9: with a quote source whose failures are ordinary exceptions, the
    only way a run ends other than normally is the rerun after a theme
    change: the run ends with the control-flow signal exactly when the user
    is signed in and the toggle differs from the stored theme, and ends
    normally otherwise. *)
Theorem main_outcome (c : Collaborators) (s : session_state) :
  (∀ sym period e,
     get_stock_data c sym period = Raise e → is_Exception e = true) →
  outcome (main c) (fresh_page s) =
    if is_authenticated c
       && bool_decide
            (theme_toggle c ≠
             bool_decide (default "light"
                            (get_user_preferences c (get_user_id c) !! "theme")
                          = "dark"))
    then Raise ScriptControl
    else Ok ().
Proof.
  intros ordinary.
  destruct (is_authenticated c) eqn:Hauth; simpl andb.
  - case_bool_decide as Htoggle.
    + unfold outcome, main. rewrite Hauth. simpl negb. cbv iota.
      unfold sidebar. rewrite (bool_decide_eq_true_2 _ Htoggle).
      unfold load_user_portfolio.
      destruct (get_user_id c) as [user_id|]; [|done].
      by destruct (bool_decide (get_user_portfolio c user_id ≠ [])).
    + destruct (main_enters_dashboard c s Hauth Htoggle) as (pg & _ & Hmain).
      unfold outcome.
      rewrite Hmain, (dashboard_runs_through c pg ordinary).
      match goal with
      | |- (news_and_footer ?p).2 = _ => exact (news_and_footer_ok p)
      end.
  - unfold outcome, main. by rewrite Hauth.
Qed.

Lemma main_outcome_witness :
  outcome (main (visit [holding "AAPL" 10 100] patchy_source "spy"))
    (fresh_page no_session) =
    if is_authenticated (visit [holding "AAPL" 10 100] patchy_source "spy")
       && bool_decide
            (theme_toggle (visit [holding "AAPL" 10 100] patchy_source "spy") ≠
             bool_decide
               (default "light"
                  (get_user_preferences
                     (visit [holding "AAPL" 10 100] patchy_source "spy")
                     (get_user_id
                        (visit [holding "AAPL" 10 100] patchy_source "spy"))
                   !! "theme")
                = "dark"))
    then Raise ScriptControl
    else Ok ().
Proof.
  apply (main_outcome (visit [holding "AAPL" 10 100] patchy_source "spy")
           no_session).
  apply patchy_source_ordinary.
Defined.
